(** * realAi: the listing pipelines of the three dashboards

    Shallow embedding of
    - [src/ai_real_estate_agent.py]  (module [RapidApi]): the coordinate
      search [search_properties_rapidapi] with its tolerant parser
      [safe_float] and the per-record mapping into [PropertyData];
    - [src/unnamed/part_000]         (module [Crores]): the category based
      [PropertyFindingAgent.find_properties];
    - [src/us_real_estate.py]        (module [Us]): [parse_location],
      [get_regional_data], the memoized [cached_search] and
      [find_properties], over the store of [functools.lru_cache]
      (module [Lru]).

    Module [Py] holds the Python values and builtins the three sources
    share, module [Notions] what the properties are stated with.  The
    modules [UsPage], [CroresPage] and [RapidPage] hold the trend
    searches, the agent of a session, the stored keys and the buttons of
    the three pages.
    Part I holds the definitions, Part II the properties of the
    specification, Part III further properties of the sources. *)

From Stdlib Require Import List String Ascii ZArith Lia Bool Arith PeanoNat.
From Stdlib Require Import DecimalString.
Import ListNotations.
Open Scope string_scope.
Set Warnings "-register-all".

(* ===================================================================== *)
(** * Part I. Definitions                                                  *)
(* ===================================================================== *)

(** ** Python values, exceptions and the builtins the sources call *)
Module Py.

(** The exception classes that occur in the sources.  [HTTPError] and
    [ConnectionError] are subclasses of [requests]' [RequestException]. *)
Inductive exn : Type :=
| TypeError | ValueError | AttributeError | KeyError | OverflowError
| ValidationError | ConnectionError | HTTPError | JSONDecodeError
| OtherException.

(** Outcome of evaluating Python code: a value or a raised exception. *)
Inductive res (A : Type) : Type :=
| Ok (a : A)
| Raise (e : exn).
Arguments Ok {A} a.
Arguments Raise {A} e.

Definition bind {A B} (r : res A) (k : A -> res B) : res B :=
  match r with
  | Ok a => k a
  | Raise e => Raise e
  end.

Declare Scope py_scope.
Delimit Scope py_scope with py.
Notation "x <- c ;; k" := (bind c (fun x => k))
  (at level 61, c at next level, right associativity) : py_scope.

(** A float is kept as the decimal number it was written as,
    [Fdec m e] standing for m * 10^e, or as one of the special values.
    Rounding to the nearest binary64 value is not modelled. *)
Inductive pyfloat : Type :=
| Fdec (m : Z) (e : Z)
| Finf (negative : bool)
| Fnan.

(** The values a decoded JSON document is made of; a dict keeps its items
    in insertion order and is looked up by its first matching key. *)
Inductive pyval : Type :=
| PNone
| PBool (b : bool)
| PInt (n : Z)
| PFloat (f : pyfloat)
| PStr (s : string)
| PList (l : list pyval)
| PDict (d : list (string * pyval)).

Definition items : Type := list (string * pyval).

(** *** Strings *)

Definition chars (s : string) : list ascii := list_ascii_of_string s.
Definition str (l : list ascii) : string := string_of_list_ascii l.

(** [str.isspace] on the ASCII range: TAB..CR, FS..US and the blank. *)
Definition is_space (c : ascii) : bool :=
  let n := nat_of_ascii c in
  (((9 <=? n) && (n <=? 13)) || ((28 <=? n) && (n <=? 32)))%nat.

Fixpoint lstrip (l : list ascii) : list ascii :=
  match l with
  | c :: t => if is_space c then lstrip t else l
  | [] => []
  end.

(** [s.strip()], on the blanks of the ASCII range; the other Unicode
    blanks (U+00A0 and the like) are left in place. *)
Definition strip (s : string) : string :=
  str (rev (lstrip (rev (lstrip (chars s))))).

Definition upper_char (c : ascii) : ascii :=
  let n := nat_of_ascii c in
  if ((97 <=? n) && (n <=? 122))%nat then ascii_of_nat (n - 32) else c.

Definition lower_char (c : ascii) : ascii :=
  let n := nat_of_ascii c in
  if ((65 <=? n) && (n <=? 90))%nat then ascii_of_nat (n + 32) else c.

(** [s.upper()] and [s.lower()], on ASCII letters. *)
Definition upper (s : string) : string := str (map upper_char (chars s)).
Definition lower (s : string) : string := str (map lower_char (chars s)).

(** [s.replace(old, new)] for a one-character [old]. *)
Definition replace_char (old : ascii) (new : string) (s : string) : string :=
  str (flat_map (fun c => if Ascii.eqb c old then chars new else [c]) (chars s)).

(** [sep in s] for a one-character [sep]. *)
Definition has_char (sep : ascii) (s : string) : bool :=
  existsb (Ascii.eqb sep) (chars s).

(** [s.split(sep)] for a one-character [sep]: every occurrence splits. *)
Fixpoint split_chars (sep : ascii) (l : list ascii) : list (list ascii) :=
  match l with
  | [] => [[]]
  | c :: t =>
    if Ascii.eqb c sep then [] :: split_chars sep t
    else match split_chars sep t with
         | w :: ws => (c :: w) :: ws
         | [] => [[c]]
         end
  end.

Definition split (sep : ascii) (s : string) : list string :=
  map str (split_chars sep (chars s)).

(** [str(n)] for an int. *)
Definition str_of_int (n : Z) : string := NilZero.string_of_int (Z.to_int n).

(** A replacement field of an f-string with no format specification:
    [str(v)], where [repr] prints the floats, lists and dicts. *)
Definition format_value (repr : pyval -> string) (v : pyval) : string :=
  match v with
  | PStr s => s
  | PNone => "None"
  | PBool true => "True"
  | PBool false => "False"
  | PInt n => str_of_int n
  | _ => repr v
  end.

(** *** Truth value, [or], [dict.get] *)

Definition truthy (v : pyval) : bool :=
  match v with
  | PNone => false
  | PBool b => b
  | PInt n => negb (n =? 0)%Z
  | PFloat (Fdec m _) => negb (m =? 0)%Z
  | PFloat _ => true
  | PStr s => negb (s =? "")
  | PList l => match l with [] => false | _ => true end
  | PDict d => match d with [] => false | _ => true end
  end.

(** [a or b] *)
Definition py_or (a b : pyval) : pyval := if truthy a then a else b.

Fixpoint lookup (k : string) (d : items) : option pyval :=
  match d with
  | [] => None
  | (k', v) :: t => if k =? k' then Some v else lookup k t
  end.

(** [d.get(k, default)] on a dict's items. *)
Definition dict_get (d : items) (k : string) (default : pyval) : pyval :=
  match lookup k d with
  | Some v => v
  | None => default
  end.

(** [v.get(k, default)]: only a dict has the attribute [get]. *)
Definition get (v : pyval) (k : string) (default : pyval) : res pyval :=
  match v with
  | PDict d => Ok (dict_get d k default)
  | _ => Raise AttributeError
  end.

(** [v[k]] on a dict with a string key. *)
Definition getitem (v : pyval) (k : string) : res pyval :=
  match v with
  | PDict d => match lookup k d with
               | Some x => Ok x
               | None => Raise KeyError
               end
  | _ => Raise TypeError
  end.

(** *** [float(...)] *)

Definition is_digit (c : ascii) : bool :=
  let n := nat_of_ascii c in ((48 <=? n) && (n <=? 57))%nat.

Definition starts_with_digit (l : list ascii) : bool :=
  match l with
  | c :: _ => is_digit c
  | [] => false
  end.

(** Longest prefix of the shape digit (["_"] digit)*, with what follows it;
    the digits are returned without the underscores. *)
Fixpoint digitpart (s : list ascii) : list ascii * list ascii :=
  match s with
  | c :: t =>
    if is_digit c then
      match t with
      | u :: t' =>
        if Ascii.eqb u "_" && starts_with_digit t'
        then let '(ds, r) := digitpart t' in (c :: ds, r)
        else let '(ds, r) := digitpart t in (c :: ds, r)
      | [] => ([c], [])
      end
    else ([], s)
  | [] => ([], [])
  end.

Definition digit_value (c : ascii) : Z := Z.of_nat (nat_of_ascii c - 48).

Definition digits_value (ds : list ascii) : Z :=
  fold_left (fun acc c => (10 * acc + digit_value c)%Z) ds 0%Z.

(** An optional sign: [(negative, rest)]. *)
Definition take_sign (s : list ascii) : bool * list ascii :=
  match s with
  | "-"%char :: t => (true, t)
  | "+"%char :: t => (false, t)
  | _ => (false, s)
  end.

(** The exponent part that may follow the digits: [e] or [E], an optional
    sign and a digit part that ends the literal. *)
Definition parse_exponent (s : list ascii) : option Z :=
  match s with
  | [] => Some 0%Z
  | c :: t =>
    if Ascii.eqb c "e" || Ascii.eqb c "E" then
      let '(neg, t1) := take_sign t in
      match digitpart t1 with
      | (d :: ds, []) =>
        let v := digits_value (d :: ds) in Some (if neg then (- v)%Z else v)
      | _ => None
      end
    else None
  end.

(** An unsigned decimal literal: digits with an optional fraction and an
    optional exponent, at least one digit before the exponent. *)
Definition parse_decimal (s : list ascii) : option (Z * Z) :=
  let '(ip, r1) := digitpart s in
  let '(fp, r2) := match r1 with
                   | "."%char :: r => digitpart r
                   | _ => ([], r1)
                   end in
  match (ip ++ fp)%list with
  | [] => None
  | ds =>
    match parse_exponent r2 with
    | Some ex => Some (digits_value ds, (ex - Z.of_nat (List.length fp))%Z)
    | None => None
    end
  end.

(** The blanks [float] skips at both ends: TAB..CR and the blank. *)
Definition is_float_space (c : ascii) : bool :=
  let n := nat_of_ascii c in (((9 <=? n) && (n <=? 13)) || (n =? 32))%nat.

Fixpoint lstrip_float (l : list ascii) : list ascii :=
  match l with
  | c :: t => if is_float_space c then lstrip_float t else l
  | [] => []
  end.

(** [float(s)] for a string: [None] stands for [ValueError].  The text
    is read as ASCII and the value is not rounded: a literal beyond the
    binary64 range stays the decimal it was written as, where [float]
    gives inf or 0.0, and digits or blanks outside ASCII are refused. *)
Definition parse_float (s : string) : option pyfloat :=
  let body := rev (lstrip_float (rev (lstrip_float (chars s)))) in
  let '(neg, u) := take_sign body in
  let word := lower (str u) in
  if (word =? "inf") || (word =? "infinity") then Some (Finf neg)
  else if word =? "nan" then Some Fnan
  else match parse_decimal u with
       | Some (m, e) => Some (Fdec (if neg then (- m)%Z else m) e)
       | None => None
       end.

(** The first integer magnitude that [float] refuses: 2^1024 - 2^970
    rounds to 2^1024, which is no binary64 value. *)
Definition float_int_limit : Z := (2 ^ 1024 - 2 ^ 970)%Z.

Definition int_fits_float (n : Z) : bool := (Z.abs n <? float_int_limit)%Z.

(** [float(v)] *)
Definition float_of (v : pyval) : res pyfloat :=
  match v with
  | PStr s => match parse_float s with
              | Some f => Ok f
              | None => Raise ValueError
              end
  | PInt n => if int_fits_float n then Ok (Fdec n 0) else Raise OverflowError
  | PBool b => Ok (Fdec (if b then 1 else 0) 0)
  | PFloat f => Ok f
  | PNone | PList _ | PDict _ => Raise TypeError
  end.

End Py.

(** ** [src/ai_real_estate_agent.py]: the coordinate search *)
Module RapidApi.
Import Py.
Local Open Scope py_scope.

(** [class PropertyData(BaseModel)]: five required fields and three
    [Optional] ones whose declared default is [None]. *)
Record PropertyData : Type := mkPropertyData {
  building_name : string;
  property_type : string;
  location_address : string;
  price : pyfloat;
  description : string;
  square_feet : option pyfloat;
  bedrooms : option Z;
  bathrooms : option pyfloat
}.

(** What the function shows on the page, in order. *)
Inductive ui_event : Type :=
| StWarning
| StSubheader
| StJson (v : pyval)
| StText
| StError (e : exn).

(** What the HTTP round trip gives: [requests.get] raises, or a response
    arrives with its status code and with what [response.json()] then
    returns or raises. *)
Inductive reply : Type :=
| GetFails (e : exn)
| Response (status : Z) (json : res pyval).

Definition requests_get (r : reply) : res (Z * res pyval) :=
  match r with
  | GetFails e => Raise e
  | Response status json => Ok (status, json)
  end.

(** [response.raise_for_status()]: [HTTPError] for a 4xx or 5xx status. *)
Definition raise_for_status (status : Z) : res unit :=
  if ((400 <=? status) && (status <? 600))%Z then Raise HTTPError else Ok tt.

(** [except requests.exceptions.RequestException]; [JSONDecodeError]
    is the class of the [json] module, which the second clause takes.
    (From requests 2.27 on the error of [response.json()] is a
    [RequestException] as well and the first clause takes it; the page
    log differs by the [st.text], the returned list does not.) *)
Definition is_request_exception (e : exn) : bool :=
  match e with
  | ConnectionError | HTTPError => true
  | _ => false
  end.

(** [safe_float(val, default)], the nested helper: a string loses its
    plus signs and its surrounding blanks ([clean]), then [float] converts;
    only [ValueError] and [TypeError] are turned into the default. *)
Definition clean (val : pyval) : pyval :=
  match val with
  | PStr s => PStr (strip (replace_char "+" "" s))
  | _ => val
  end.

Definition safe_float (val default : pyval) : res pyval :=
  match float_of (clean val) with
  | Ok f => Ok (PFloat f)
  | Raise ValueError | Raise TypeError => Ok default
  | Raise e => Raise e
  end.

Section Mapper.

(** [str(v)] of a float, a list or a dict, as the f-strings print it. *)
Variable repr : pyval -> string.
Let format_value := Py.format_value repr.
(** How the validation library reads a string as an int. *)
Variable int_of_str : string -> option Z.

(** Field validation of the model library, in its default (lax) mode.
    A string is read as a float with [parse_float], the grammar of
    [float]; the library's own grammar differs from it on digit
    separators.  Every whole float is taken as an int; the library
    refuses those beyond 64 bits. *)
Definition validate_str (v : pyval) : option string :=
  match v with
  | PStr s => Some s
  | _ => None
  end.

Definition validate_float (v : pyval) : option pyfloat :=
  match v with
  | PFloat f => Some f
  | PInt n => if int_fits_float n then Some (Fdec n 0) else None
  | PBool b => Some (Fdec (if b then 1 else 0) 0)
  | PStr s => parse_float s
  | _ => None
  end.

(** m * 10^e is a whole number. *)
Definition integral_value (m e : Z) : option Z :=
  if (0 <=? e)%Z then Some (m * 10 ^ e)%Z
  else if (m mod 10 ^ (- e) =? 0)%Z then Some (m / 10 ^ (- e))%Z
  else None.

Definition validate_int (v : pyval) : option Z :=
  match v with
  | PInt n => Some n
  | PBool b => Some (if b then 1 else 0)%Z
  | PFloat (Fdec m e) => integral_value m e
  | PStr s => int_of_str s
  | _ => None
  end.

(** An [Optional[T]] field: [None] is kept, anything else is validated. *)
Definition validate_optional {T} (validate : pyval -> option T) (v : pyval)
  : option (option T) :=
  match v with
  | PNone => Some None
  | _ => match validate v with
         | Some x => Some (Some x)
         | None => None
         end
  end.

(** [PropertyData(building_name=..., ...)]: one [ValidationError] when a
    field is refused. *)
Definition new_PropertyData
  (building_name property_type location_address price description
   square_feet bedrooms bathrooms : pyval) : res PropertyData :=
  match validate_str building_name, validate_str property_type,
        validate_str location_address, validate_float price,
        validate_str description,
        validate_optional validate_float square_feet,
        validate_optional validate_int bedrooms,
        validate_optional validate_float bathrooms with
  | Some bn, Some pt, Some la, Some pr, Some de, Some sq, Some be, Some ba =>
    Ok (mkPropertyData bn pt la pr de sq be ba)
  | _, _, _, _, _, _, _, _ => Raise ValidationError
  end.

(** The body of the per-record [try]: lines 150 to 170. *)
Definition map_property (prop_api : pyval) : res PropertyData :=
  location <- get prop_api "location" (PDict []) ;;
  address <- get location "address" (PDict []) ;;
  description <- get prop_api "description" (PDict []) ;;
  list_price <- get prop_api "list_price" PNone ;;
  let price := py_or list_price (PFloat (Fdec 0 0)) in
  line <- get address "line" PNone ;;
  type <- get description "type" PNone ;;
  city <- get address "city" PNone ;;
  state_code <- get address "state_code" PNone ;;
  postal_code <- get address "postal_code" PNone ;;
  let location_address :=
    (format_value (py_or line (PStr "")) ++ ", " ++
     format_value (py_or city (PStr "")) ++ ", " ++
     format_value (py_or state_code (PStr "")) ++ " " ++
     format_value (py_or postal_code (PStr "")))%string in
  beds_text <- get description "beds" (PStr "N/A") ;;
  baths_text <- get description "baths_consolidated" (PStr "N/A") ;;
  sqft_text <- get description "sqft" (PStr "N/A") ;;
  let description_text :=
    (format_value beds_text ++ " hab, " ++ format_value baths_text ++
     " ba" ++ String (ascii_of_nat 195) (String (ascii_of_nat 177) "os, ") ++
     format_value sqft_text ++ " sqft")%string in
  sqft <- get description "sqft" PNone ;;
  beds <- get description "beds" PNone ;;
  baths <- get description "baths_consolidated" PNone ;;
  bathrooms <- safe_float baths PNone ;;
  new_PropertyData
    (py_or line (PStr "N/A")) (py_or type (PStr "N/A"))
    (PStr location_address) price (PStr description_text)
    sqft beds bathrooms.

(** The [for] loop of lines 148 to 173: a record whose mapping raises is
    reported and the loop goes on with the next one. *)
Fixpoint map_records (records : list pyval)
  (properties_data : list PropertyData) (log : list ui_event)
  : list PropertyData * list ui_event :=
  match records with
  | [] => (properties_data, log)
  | prop_api :: rest =>
    match map_property prop_api with
    | Ok property_data =>
      map_records rest (properties_data ++ [property_data])%list log
    | Raise map_e =>
      map_records rest properties_data (log ++ [StError map_e])%list
    end
  end.

(** What [for prop_api in results_list] iterates over. *)
Definition iterate (v : pyval) : res (list pyval) :=
  match v with
  | PList l => Ok l
  | PDict d => Ok (map (fun kv => PStr (fst kv)) d)
  | PStr s => Ok (map (fun c => PStr (String c "")) (chars s))
  | _ => Raise TypeError
  end.

(** The body of the outer [try], lines 137 to 173.  It ends in the early
    [return []] ([Ok (Some [])]), falls through ([Ok None]) or raises;
    next to that it gives [properties_data] and the page log as it left
    them. *)
Definition try_body (r : reply)
  : res (option (list PropertyData)) * (list PropertyData * list ui_event) :=
  match (response <- requests_get r ;;
         _ <- raise_for_status (fst response) ;;
         api_response_json <- snd response ;;
         results_list <- get api_response_json "properties" (PList []) ;;
         Ok (api_response_json, results_list)) with
  | Raise e => (Raise e, ([], []))
  | Ok (api_response_json, results_list) =>
    if negb (truthy results_list)
    then (Ok (Some []), ([], [StWarning; StSubheader; StJson api_response_json]))
    else match iterate results_list with
         | Raise e => (Raise e, ([], []))
         | Ok records => (Ok None, map_records records [] [])
         end
  end.

(** [search_properties_rapidapi]: the three [except] clauses in order, then
    [return properties_data]. *)
Definition search_properties_rapidapi (r : reply)
  : res (list PropertyData) * list ui_event :=
  let '(outcome, (properties_data, log)) := try_body r in
  match outcome with
  | Ok (Some early) => (Ok early, log)
  | Ok None => (Ok properties_data, log)
  | Raise e =>
    if is_request_exception e
    then (Ok properties_data, log ++ [StError e])%list
    else match e with
         | JSONDecodeError =>
           (Ok properties_data, log ++ [StError e; StText])%list
         | _ => (Ok properties_data, log ++ [StError e])%list
         end
  end.

End Mapper.

End RapidApi.

(** ** [src/unnamed/part_000]: the category based search *)
Module Crores.
Import Py.
Local Open Scope py_scope.

Section Agent.

(** [str(v)] of a float, a list or a dict, as the f-strings print it. *)
Variable repr : pyval -> string.
(** [PropertiesResponse.model_json_schema()] *)
Variable schema : items.
(** [self.firecrawl.extract(urls=..., params=...)], the extraction service. *)
Variable extract : list string -> items -> res pyval.
(** [self.agent.run(text).content], the language model. *)
Variable agent_run : string -> res string.

Definition urls (formatted_location : string) : list string :=
  [("https://www.squareyards.com/sale/property-for-sale-in-"
    ++ formatted_location ++ "/*")%string;
   ("https://www.99acres.com/property-in-" ++ formatted_location
    ++ "-ffid/*")%string;
   ("https://housing.com/in/buy/" ++ formatted_location ++ "/"
    ++ formatted_location)%string].

(** The extraction instructions of lines 77 to 87. *)
Definition extract_prompt (city : string) (max_price : pyval)
  (property_category property_type_prompt : string) : string :=
  ("Extract ONLY 10 OR LESS different "
   ++ property_category
   ++ " "
   ++ property_type_prompt
   ++ " from "
   ++ city
   ++ " that cost less than "
   ++ format_value repr max_price
   ++ " crores.
                
                Requirements:
                - Property Category: "
   ++ property_category
   ++ " properties only
                - Property Type: "
   ++ property_type_prompt
   ++ " only
                - Location: "
   ++ city
   ++ "
                - Maximum Price: "
   ++ format_value repr max_price
   ++ " crores
                - Include complete property details with exact location
                - IMPORTANT: Return data for at least 3 different properties. MAXIMUM 10.
                - Format as a list of properties with their respective details
                ")%string.

(** Lines 94 to 97: the listings of a successful response, else none. *)
Definition properties_of (raw_response : pyval) : res pyval :=
  match raw_response with
  | PDict d =>
    if truthy (dict_get d "success" PNone)
    then data <- getitem raw_response "data" ;;
         get data "properties" (PList [])
    else Ok (PList [])
  | _ => Ok (PList [])
  end.

(** The analysis instructions handed to the model, lines 103 to 144. *)
Definition analysis_prompt (properties max_price : pyval)
  (property_category property_type : string) : string :=
  ("As a real estate expert, analyze these properties and market trends:

            Properties Found in json format:
            "
   ++ format_value repr properties
   ++ "

            **IMPORTANT INSTRUCTIONS:**
            1. ONLY analyze properties from the above JSON data that match the user's requirements:
               - Property Category: "
   ++ property_category
   ++ "
               - Property Type: "
   ++ property_type
   ++ "
               - Maximum Price: "
   ++ format_value repr max_price
   ++ " crores
            2. DO NOT create new categories or property types
            3. From the matching properties, select 5-6 properties with prices closest to "
   ++ format_value repr max_price
   ++ " crores

            Please provide your analysis in this format:
            
            🏠 SELECTED PROPERTIES
            • List only 5-6 best matching properties with prices closest to "
   ++ format_value repr max_price
   ++ " crores
            • For each property include:
              - Name and Location
              - Price (with value analysis)
              - Key Features
              - Pros and Cons

            💰 BEST VALUE ANALYSIS
            • Compare the selected properties based on:
              - Price per sq ft
              - Location advantage
              - Amenities offered

            📍 LOCATION INSIGHTS
            • Specific advantages of the areas where selected properties are located

            💡 RECOMMENDATIONS
            • Top 3 properties from the selection with reasoning
            • Investment potential
            • Points to consider before purchase

            🤝 NEGOTIATION TIPS
            • Property-specific negotiation strategies

            Format your response in a clear, structured way using the above sections.
            ")%string.

(** [PropertyFindingAgent.find_properties] *)
Definition find_properties (city : string) (max_price : pyval)
  (property_category property_type : string) : res string :=
  let formatted_location := lower city in
  let property_type_prompt :=
    if (property_type =? "Flat")%string then "Flats" else "Individual Houses" in
  raw_response <-
    extract (urls formatted_location)
      [("prompt", PStr (extract_prompt city max_price property_category
                          property_type_prompt));
       ("schema", PDict schema)] ;;
  properties <- properties_of raw_response ;;
  agent_run (analysis_prompt properties max_price property_category
               property_type).

End Agent.

End Crores.

(** ** [functools.lru_cache]: the store behind a memoized function *)
Module Lru.

Section Store.

Variables K V : Type.
Variable K_eq_dec : forall a b : K, {a = b} + {a <> b}.

(** The cached entries, the most recently used first. *)
Definition store : Type := list (K * V).

Fixpoint find (k : K) (c : store) : option V :=
  match c with
  | [] => None
  | (k', v) :: t => if K_eq_dec k k' then Some v else find k t
  end.

Fixpoint remove (k : K) (c : store) : store :=
  match c with
  | [] => []
  | (k', v) :: t => if K_eq_dec k k' then t else (k', v) :: remove k t
  end.

(** A hit makes the entry the most recently used one. *)
Definition touch (k : K) (v : V) (c : store) : store := (k, v) :: remove k c.

(** A miss stores the new result; a full store first gives up its least
    recently used entry. *)
Definition add (maxsize : nat) (k : K) (v : V) (c : store) : store :=
  (k, v) :: (if (maxsize <=? List.length c)%nat then removelast c else c).

End Store.

Arguments find {K V} K_eq_dec k c.
Arguments remove {K V} K_eq_dec k c.
Arguments touch {K V} K_eq_dec k v c.
Arguments add {K V} maxsize k v c.

End Lru.

(** ** [src/us_real_estate.py]: the U.S. search *)
Module Us.
Import Py.
Local Open Scope py_scope.

(** [REGIONAL_SETTINGS] *)
Definition REGIONAL_SETTINGS : list (string * items) :=
  [("CA", [("tax_rate", PFloat (Fdec 12 (-3))); ("price_per_sqft", PInt 650)]);
   ("TX", [("tax_rate", PFloat (Fdec 21 (-3))); ("price_per_sqft", PInt 200)]);
   ("FL", [("tax_rate", PFloat (Fdec 19 (-3))); ("price_per_sqft", PInt 300)]);
   ("NY", [("tax_rate", PFloat (Fdec 15 (-3))); ("price_per_sqft", PInt 800)])].

Fixpoint settings_get (k : string) (table : list (string * items))
  : option items :=
  match table with
  | [] => None
  | (k', v) :: t => if (k =? k')%string then Some v else settings_get k t
  end.



(** [parse_location]: every comma splits, and the unpacking into
    [city, state] needs exactly two parts. *)
Definition parse_location (location : string)
  : res (string * option string) :=
  if has_char "," location then
    match map strip (split "," location) with
    | [city; state] => Ok (city, Some (upper state))
    | _ => Raise ValueError
    end
  else Ok (location, None).

(** [get_regional_data]: [REGIONAL_SETTINGS.get(state, {})], for the
    string or [None] that [parse_location] hands over. *)
Definition get_regional_data (state : option string) : items :=
  match state with
  | Some s => match settings_get s REGIONAL_SETTINGS with
              | Some d => d
              | None => []
              end
  | None => []
  end.

(** The two lookups the analysis text makes in the regional data. *)
Definition prompt_price_per_sqft (regional_data : items) : pyval :=
  dict_get regional_data "price_per_sqft" (PInt 0).

Definition prompt_tax_rate (regional_data : items) : pyval :=
  dict_get regional_data "tax_rate" (PInt 0).

(** Line 92. *)
Definition formatted_location (city : string) (state : option string)
  : string :=
  let slug := replace_char " " "-" (lower city) in
  match state with
  | Some st => if (st =? "")%string then slug
               else (slug ++ "-" ++ lower st)%string
  | None => slug
  end.

Definition urls (state : option string) (formatted_location : string)
  : list string :=
  [("https://www.zillow.com/homes/" ++ formatted_location ++ "_rb/")%string;
   ("https://www.realtor.com/realestateandhomes-search/"
    ++ formatted_location)%string;
   ("https://www.redfin.com/city/34701/"
    ++ match state with Some st => st | None => "None" end
    ++ "/" ++ formatted_location)%string;
   ("https://www.trulia.com/" ++ formatted_location)%string].

(** A comma after every third digit, counting from the units; the digits
    come in with the units first. *)
Fixpoint group3 (rev_digits : list ascii) (i : nat) : list ascii :=
  match rev_digits with
  | [] => []
  | d :: t =>
    match t with
    | [] => [d]
    | _ :: _ => if (i =? 2)%nat then d :: ","%char :: group3 t 0
                else d :: group3 t (S i)
    end
  end.

(** The format specification [:,.0f] on the whole number the price input
    of the page delivers (50000 to 5000000 in steps of 25000).  The
    digits are exact for every whole number; the code rounds to a float
    first, so beyond 2^53 its digits differ. *)
Definition format_comma_0f (n : Z) : string :=
  ((if (n <? 0)%Z then "-" else "")
   ++ str (rev (group3 (rev (chars (str_of_int (Z.abs n)))) 0)))%string.

(** The bedrooms line of the search prompt: empty for [None] and for 0. *)
Definition bedrooms_line (bedrooms : option Z) : string :=
  match bedrooms with
  | Some n => if (n =? 0)%Z then "" else ("- Bedrooms: " ++ str_of_int n)%string
  | None => ""
  end.

(** The extraction instructions of lines 101 to 113. *)
Definition search_prompt (location : string) (max_price : Z)
  (property_type : string) (bedrooms : option Z) : string :=
  ("
        Extract residential properties matching:
        - Location: "
   ++ location
   ++ "
        - Max Price: $"
   ++ format_comma_0f max_price
   ++ "
        - Property Type: "
   ++ property_type
   ++ "
        "
   ++ bedrooms_line bedrooms
   ++ "
        
        Requirements:
        - Include active listings only
        - Minimum 3 properties, maximum 10
        - Include full address and key details
        - Exclude foreclosures and auctions
        ")%string.

(** Line 123. *)
Definition properties_of (raw_response : pyval) : res pyval :=
  success <- get raw_response "success" PNone ;;
  if truthy success
  then data <- getitem raw_response "data" ;;
       get data "properties" (PList [])
  else Ok (PList []).

Section Agent.

(** The immutable mapping objects that define [__hash__], told apart by
    their [==], and the keyword arguments each one unpacks to. *)
Variable K : Type.
Variable K_eq_dec : forall a b : K, {a = b} + {a <> b}.
Variable kwargs_of : K -> items.

(** What [cached_search] is called with: the annotation says [dict], and
    any mapping passes [**params]. *)
Inductive search_params : Type :=
| Dict (d : items)
| Frozen (k : K).

(** [PropertiesResponse.model_json_schema()] *)
Variable schema : items.
(** [self.firecrawl.extract] of agent [self] on the unpacked keyword
    arguments, as the n-th call to the extraction service. *)
Variable extract : nat -> nat -> items -> res pyval.
(** [self.agent.run(text).content], the language model. *)
Variable agent_run : string -> res string.
(** [str(v)] of a float, a list or a dict, as the f-strings print it. *)
Variable repr : pyval -> string.
(** What the tax-rate field of line 140 prints: the field ends in [%}],
    which is no replacement field of an f-string, so its rendering of the
    looked-up rate is left open. *)
Variable tax_rate_field : pyval -> string.

(** The analysis instructions of lines 126 to 168, built from the listings
    and the regional data. *)
Definition analysis_prompt (properties : pyval) (regional_data : items)
  : string :=
  ("As a U.S. real estate expert, analyze these properties:

            Properties:
            "
   ++ format_value repr properties
   ++ "

            **Analysis Requirements:**
            1. Market Comparison:
               - Price vs local median ($"
   ++ format_value repr (prompt_price_per_sqft regional_data)
   ++ "/sqft)
               - Days on market analysis
            2. Property Evaluation:
               - Price/square foot
               - Year built significance
               - Lot size value
            3. Financial Considerations:
               - Tax estimates ("
   ++ tax_rate_field (prompt_tax_rate regional_data)
   ++ " rate)
               - HOA impact
            4. Recommendations:
               - Top 3 value picks
               - Investment potential
               - Red flags

            **Response Format:**
            
            üè° PROPERTY ANALYSIS
            ‚Ä¢ Price/SqFt Comparison
            ‚Ä¢ Key Value Indicators
            
            üìà MARKET INSIGHTS
            ‚Ä¢ Local Trends
            ‚Ä¢ Inventory Analysis
            
            üí∞ FINANCIAL BREAKDOWN
            ‚Ä¢ Tax Estimates
            ‚Ä¢ Maintenance Costs
            
            üèÜ TOP PICKS
            ‚Ä¢ Best Value
            ‚Ä¢ Best Investment
            
            üîç RED FLAGS
            ‚Ä¢ Overpriced
            ‚Ä¢ Structural Concerns
            ")%string.

(** The cache of the decorator is keyed by the arguments [(self, params)]
    and belongs to the function, so all agents of the process share it. *)
Definition key : Type := (nat * K)%type.

Definition key_eq_dec (a b : key) : {a = b} + {a <> b}.
Proof. decide equality; first [apply K_eq_dec | apply Nat.eq_dec]. Defined.

Record session : Type := mkSession {
  cache : Lru.store key pyval;
  upstream_calls : nat
}.

Definition maxsize : nat := 100.

(** The key is hashed before anything else happens: a dict has no hash. *)
Definition make_key (self : nat) (params : search_params) : res key :=
  match params with
  | Dict _ => Raise TypeError
  | Frozen k => Ok (self, k)
  end.

(** The decorated body, line 68. *)
Definition cached_search_body (self : nat) (params : search_params)
  (s : session) : res pyval * session :=
  let kwargs := match params with
                | Dict d => d
                | Frozen k => kwargs_of k
                end in
  (extract self (upstream_calls s) kwargs,
   mkSession (cache s) (S (upstream_calls s))).

(** [cached_search] under [@lru_cache(maxsize=100)]. *)
Definition cached_search (self : nat) (params : search_params)
  (s : session) : res pyval * session :=
  match make_key self params with
  | Raise e => (Raise e, s)
  | Ok k =>
    match Lru.find key_eq_dec k (cache s) with
    | Some result =>
      (Ok result, mkSession (Lru.touch key_eq_dec k result (cache s))
                            (upstream_calls s))
    | None =>
      match cached_search_body self params s with
      | (Ok result, s') =>
        (Ok result, mkSession (Lru.add maxsize k result (cache s'))
                              (upstream_calls s'))
      | (Raise e, s') => (Raise e, s')
      end
    end
  end.

(** The request of lines 115 to 121: a dict literal. *)
Definition search_request (urls : list string) (search_prompt : string)
  : search_params :=
  Dict [("urls", PList (map PStr urls));
        ("params", PDict [("prompt", PStr search_prompt);
                          ("schema", PDict schema)])].

(** [PropertyFindingAgent.find_properties] *)
Definition find_properties (self : nat) (location : string) (max_price : Z)
  (property_type : string) (bedrooms : option Z) (s : session)
  : res string * session :=
  match parse_location location with
  | Raise e => (Raise e, s)
  | Ok (city, state) =>
    let regional_data := get_regional_data state in
    let floc := formatted_location city state in
    let prompt := search_prompt location max_price property_type bedrooms in
    match cached_search self (search_request (urls state floc) prompt) s with
    | (Raise e, s') => (Raise e, s')
    | (Ok raw_response, s') =>
      (properties <- properties_of raw_response ;;
       agent_run (analysis_prompt properties regional_data), s')
    end
  end.

(** A run of searches, each by some agent with some parameters. *)
Fixpoint run_searches (calls : list (nat * search_params)) (s : session)
  : session :=
  match calls with
  | [] => s
  | (self, params) :: rest =>
    run_searches rest (snd (cached_search self params s))
  end.

End Agent.

Arguments Dict {K} d.
Arguments Frozen {K} k.
Arguments mkSession {K} cache upstream_calls.
Arguments cache {K} s.
Arguments upstream_calls {K} s.
Arguments make_key {K} self params.
Arguments cached_search_body {K} kwargs_of extract self params s.
Arguments cached_search {K} K_eq_dec kwargs_of extract self params s.
Arguments search_request {K} schema urls search_prompt.
Arguments run_searches {K} K_eq_dec kwargs_of extract calls s.
Arguments find_properties {K} K_eq_dec kwargs_of schema extract agent_run
  repr tax_rate_field self location max_price property_type bedrooms s.

End Us.

(** ** Notions the properties are stated with *)
Module Notions.
Import Py.

(** [sub] occurs in [s]. *)
Definition contains (sub s : string) : Prop :=
  exists before after : string, s = (before ++ sub ++ after)%string.

(** [p] is what [s] starts with. *)
Fixpoint prefixb (p s : string) : bool :=
  match p, s with
  | EmptyString, _ => true
  | String a p', String b s' => Ascii.eqb a b && prefixb p' s'
  | String _ _, EmptyString => false
  end.

(** The executable form of [contains]. *)
Fixpoint containsb (sub s : string) : bool :=
  prefixb sub s ||
  match s with
  | EmptyString => false
  | String _ s' => containsb sub s'
  end.

(** What stands before the ending [l] of [s], when [s] ends in [l]. *)
Fixpoint before_suffix (l s : string) : option string :=
  if (s =? l)%string then Some EmptyString
  else match s with
       | EmptyString => None
       | String c s' => option_map (String c) (before_suffix l s')
       end.

(** The values [float] converts or refuses with the two exceptions
    [safe_float] handles: everything but an int beyond the float range. *)
Definition in_float_range (v : pyval) : bool :=
  match v with
  | PInt n => int_fits_float n
  | _ => true
  end.

(** The round trips that fail: no response, a 4xx or 5xx status, or a
    body that does not decode. *)
Definition upstream_failure (r : RapidApi.reply) : bool :=
  match r with
  | RapidApi.GetFails _ => true
  | RapidApi.Response status json =>
    ((400 <=? status) && (status <? 600))%Z
    || match json with Raise _ => true | Ok _ => false end
  end.

(** A decoded payload without listings: no dict, or a dict whose
    [properties] entry is missing or empty. *)
Definition lacks_listings (v : pyval) : bool :=
  match v with
  | PDict d => negb (truthy (dict_get d "properties" (PList [])))
  | _ => true
  end.

(** The state is one of the four keys of the table. *)
Definition listed_state (state : option string) : bool :=
  match state with
  | Some s => existsb (String.eqb s) ["CA"; "TX"; "FL"; "NY"]
  | None => false
  end.

(** The records of a batch whose mapping succeeds, in their order. *)
Definition kept (repr : pyval -> string) (int_of_str : string -> option Z)
  (records : list pyval) : list RapidApi.PropertyData :=
  flat_map (fun prop_api =>
              match RapidApi.map_property repr int_of_str prop_api with
              | Ok property_data => [property_data]
              | Raise _ => []
              end) records.

(** Stand-ins for the printing of floats, lists and dicts and for the
    reading of a string as an int, where a concrete run needs them. *)
Definition repr_stub (v : pyval) : string :=
  match v with
  | PList [] => "[]"
  | PDict [] => "{}"
  | _ => "<value>"
  end.
Definition int_of_str_stub (s : string) : option Z :=
  match parse_float s with
  | Some (Fdec m e) => RapidApi.integral_value m e
  | _ => None
  end.

(** Raw listings for concrete runs: one complete, one without bedrooms,
    bathrooms and area, one whose price is the text "350,000+". *)
Definition sample_location : pyval :=
  PDict [("address", PDict [("line", PStr "12 Elm St"); ("city", PStr "Austin");
                            ("state_code", PStr "TX");
                            ("postal_code", PStr "78701")])].

Definition record_complete : pyval :=
  PDict [("list_price", PInt 425000); ("location", sample_location);
         ("description", PDict [("type", PStr "condo"); ("beds", PInt 2);
                                ("baths_consolidated", PStr "2+");
                                ("sqft", PInt 900)])].

Definition record_without_details : pyval :=
  PDict [("list_price", PInt 399000); ("location", sample_location);
         ("description", PDict [("type", PStr "condo")])].

Definition record_plus_price : pyval :=
  PDict [("list_price", PStr "350,000+"); ("location", sample_location);
         ("description", PDict [("type", PStr "condo"); ("beds", PInt 3);
                                ("baths_consolidated", PStr "2");
                                ("sqft", PInt 1100)])].

(** A stand-in for the tax-rate field: the rate and a percent sign. *)
Definition percent_stub (v : pyval) : string :=
  (format_value repr_stub v ++ "%")%string.

(** The entry of [k] is in the store, it holds [v], and the entries in
    front of it, the more recently used ones, have distinct keys that all
    come from [others]. *)
Definition guarded {K V : Type} (k : K) (v : V) (others : list K)
  (c : Lru.store K V) : Prop :=
  exists front back : Lru.store K V,
    c = (front ++ (k, v) :: back)%list /\
    ~ In k (map fst front) /\
    NoDup (map fst front) /\
    incl (map fst front) others.

(** A session of the U.S. search for concrete runs: the hashable mappings
    are numbered, the extraction service answers its n-th call with a
    payload that holds n, and no search was made yet. *)
Definition numbered_kwargs (k : nat) : items :=
  [("urls", PList [PStr (str_of_int (Z.of_nat k))])].

Definition answer (n : nat) : pyval :=
  PDict [("success", PBool true);
         ("data", PDict [("properties", PList [PInt (Z.of_nat n)])])].

Definition extract_stub (self n : nat) (kwargs : items) : res pyval :=
  Ok (answer n).

(** An extraction service that cannot be reached. *)
Definition extract_down (self n : nat) (kwargs : items) : res pyval :=
  Raise ConnectionError.

Definition fresh_session : Us.session nat := Us.mkSession [] 0.

(** The searches of agent 0 with the mappings numbered [first] to
    [first + count - 1]. *)
Definition searches (first count : nat) : list (nat * Us.search_params nat) :=
  map (fun k => (0%nat, Us.Frozen k)) (seq first count).

End Notions.

(** ** [src/us_real_estate.py]: the market trends and the page *)
Module UsPage.
Import Py.
Local Open Scope py_scope.

(** A [PropertyFindingAgent] with what [__init__] was given; [ident] is
    the identity of the object. *)
Record agent : Type := mkAgent {
  ident : nat;
  firecrawl_api_key : string;
  openai_api_key : string;
  agent_model_id : string
}.

(** What the page keeps in [st.session_state]. *)
Record session_state : Type := mkState {
  model_id : string;
  firecrawl_key : string;
  openai_key : string;
  property_agent : option agent
}.

(** The sidebar of [main], lines 248 to 263: each run of the page stores
    the chosen model and the two keys as they are typed in. *)
Definition sidebar (model fire_key open_key : string) (st : session_state)
  : session_state :=
  mkState model fire_key open_key (property_agent st).

(** [create_property_agent]: an agent is built, as the object [fresh],
    only when the session has none. *)
Definition create_property_agent (fresh : nat) (st : session_state)
  : session_state :=
  match property_agent st with
  | Some _ => st
  | None =>
    mkState (model_id st) (firecrawl_key st) (openai_key st)
      (Some (mkAgent fresh (firecrawl_key st) (openai_key st) (model_id st)))
  end.

(** The choice of the bedrooms box: "Any" or a number. *)
Inductive bedrooms_choice : Type :=
| AnyBedrooms
| Bedrooms (n : Z).

(** What a click on the button puts on the page. *)
Inductive shown : Type :=
| MissingKeys
| Divider
| AnalysisHeader
| Markdown (text : string)
| TrendsExpander (text : string)
| ConsiderationsHeader
| ErrorMessage (e : exn).

(** [f"{state}"] *)
Definition state_text (state : option string) : string :=
  match state with
  | Some st => st
  | None => "None"
  end.

Definition trends_url (city : string) (state : option string) : string :=
  ("https://www.zillow.com/" ++ city ++ "-" ++ state_text state
   ++ "/housing-market/")%string.

(** The extraction instructions of lines 180 to 187. *)
Definition trends_prompt (city : string) (state : option string) : string :=
  ("
                Extract market trends for "
   ++ city
   ++ ", "
   ++ state_text state
   ++ ":
                - Neighborhood price data
                - School ratings
                - Price trends (YoY)
                - Days on market
                - Rental yields
                ")%string.

(** The text of lines 329 to 334. *)
Definition considerations : string :=
  "
                - Verify property details with local MLS
                - Consult mortgage broker for financing
                - Review HOA covenants
                - Conduct professional inspection
                ".

Section Agent.

Variable K : Type.
Variable K_eq_dec : forall a b : K, {a = b} + {a <> b}.
Variable kwargs_of : K -> items.
(** [PropertiesResponse.model_json_schema()] and
    [LocationsResponse.model_json_schema()] *)
Variable schema : items.
Variable trends_schema : items.
Variable extract : nat -> nat -> items -> res pyval.
Variable agent_run : string -> res string.
Variable repr : pyval -> string.
Variable tax_rate_field : pyval -> string.

(** The analysis instructions of lines 196 to 224. *)
Definition trends_analysis_prompt (location : string) (trends : pyval)
  : string :=
  ("Analyze real estate trends for "
   ++ location
   ++ ":

                Data:
                "
   ++ format_value repr trends
   ++ "

                **Required Analysis:**
                1. Price Trends by Neighborhood
                2. School District Impact
                3. Emerging Areas
                4. Investment Recommendations

                **Format:**
                
                üìä MARKET OVERVIEW
                ‚Ä¢ Current Median Price
                ‚Ä¢ Market Temperature
                
                üè´ SCHOOL IMPACT
                ‚Ä¢ Top Districts
                ‚Ä¢ Price Premiums
                
                üöÄ GROWTH AREAS
                ‚Ä¢ Upcoming Neighborhoods
                ‚Ä¢ Development Projects
                
                üí° INVESTOR GUIDE
                ‚Ä¢ Best Rental Yields
                ‚Ä¢ Flipping Opportunities
                ")%string.

(** [PropertyFindingAgent.get_market_trends] *)
Definition get_market_trends (self : nat) (location : string)
  (s : Us.session K) : res string * Us.session K :=
  match Us.parse_location location with
  | Raise e => (Raise e, s)
  | Ok (city, state) =>
    match Us.cached_search K_eq_dec kwargs_of extract self
            (Us.Dict [("urls", PList [PStr (trends_url city state)]);
                      ("params",
                       PDict [("prompt", PStr (trends_prompt city state));
                              ("schema", PDict trends_schema)])]) s with
    | (Raise e, s') => (Raise e, s')
    | (Ok raw_response, s') =>
      (success <- get raw_response "success" PNone ;;
       if truthy success
       then data <- getitem raw_response "data" ;;
            trends <- get data "trends" (PList []) ;;
            agent_run (trends_analysis_prompt location trends)
       else Ok "No market trends data available", s')
    end
  end.

(** The button of [main], lines 303 to 337: without both keys the page
    says so; else the agent of the session runs the two searches inside
    one [try], and any exception ends up as an error message. *)
Definition analyze_clicked (fresh : nat) (location : string) (max_price : Z)
  (property_type : string) (bedrooms : bedrooms_choice)
  (st : session_state) (s : Us.session K)
  : list shown * session_state * Us.session K :=
  if (firecrawl_key st =? "")%string || (openai_key st =? "")%string
  then ([MissingKeys], st, s)
  else
    let st' := create_property_agent fresh st in
    match property_agent st' with
    | None => ([ErrorMessage AttributeError], st', s)
    | Some a =>
      match Us.find_properties K_eq_dec kwargs_of schema extract agent_run
              repr tax_rate_field (ident a) location max_price property_type
              (match bedrooms with
               | AnyBedrooms => None
               | Bedrooms n => Some n
               end) s with
      | (Raise e, s1) => ([ErrorMessage e], st', s1)
      | (Ok properties, s1) =>
        match get_market_trends (ident a) location s1 with
        | (Raise e, s2) =>
          ([Divider; AnalysisHeader; Markdown properties; ErrorMessage e],
           st', s2)
        | (Ok trends, s2) =>
          ([Divider; AnalysisHeader; Markdown properties;
            TrendsExpander trends; Divider; ConsiderationsHeader;
            Markdown considerations], st', s2)
        end
      end
    end.

End Agent.

Arguments get_market_trends {K} K_eq_dec kwargs_of trends_schema extract
  agent_run repr self location s.
Arguments analyze_clicked {K} K_eq_dec kwargs_of schema trends_schema extract
  agent_run repr tax_rate_field fresh location max_price property_type
  bedrooms st s.

End UsPage.

(** ** [src/unnamed/part_000]: the location trends *)
Module CroresPage.
Import Py.
Local Open Scope py_scope.

(** The extraction instructions of lines 154 to 160. *)
Definition trends_prompt : string :=
  "Extract price trends data for ALL major localities in the city. 
            IMPORTANT: 
            - Return data for at least 5-10 different localities
            - Include both premium and affordable areas
            - Do not skip any locality mentioned in the source
            - Format as a list of locations with their respective data
            ".

Section Agent.

Variable repr : pyval -> string.
(** [LocationsResponse.model_json_schema()] *)
Variable locations_schema : items.
Variable extract : list string -> items -> res pyval.
Variable agent_run : string -> res string.

Definition trends_url (city : string) : string :=
  ("https://www.99acres.com/property-rates-and-price-trends-in-"
   ++ lower city ++ "-prffid/*")%string.

(** The analysis instructions of lines 168 to 197. *)
Definition trends_analysis_prompt (city : string) (locations : pyval)
  : string :=
  ("As a real estate expert, analyze these location price trends for "
   ++ city
   ++ ":

                "
   ++ format_value repr locations
   ++ "

                Please provide:
                1. A bullet-point summary of the price trends for each location
                2. Identify the top 3 locations with:
                   - Highest price appreciation
                   - Best rental yields
                   - Best value for money
                3. Investment recommendations:
                   - Best locations for long-term investment
                   - Best locations for rental income
                   - Areas showing emerging potential
                4. Specific advice for investors based on these trends

                Format the response as follows:
                
                📊 LOCATION TRENDS SUMMARY
                • [Bullet points for each location]

                🏆 TOP PERFORMING AREAS
                • [Bullet points for best areas]

                💡 INVESTMENT INSIGHTS
                • [Bullet points with investment advice]

                🎯 RECOMMENDATIONS
                • [Bullet points with specific recommendations]
                ")%string.

(** [PropertyFindingAgent.get_location_trends] *)
Definition get_location_trends (city : string) : res string :=
  raw_response <-
    extract [trends_url city]
      [("prompt", PStr trends_prompt); ("schema", PDict locations_schema)] ;;
  match raw_response with
  | PDict d =>
    if truthy (dict_get d "success" PNone)
    then data <- getitem raw_response "data" ;;
         locations <- get data "locations" (PList []) ;;
         agent_run (trends_analysis_prompt city locations)
    else Ok "No price trends data available"
  | _ => Ok "No price trends data available"
  end.

End Agent.

End CroresPage.

(** ** [src/ai_real_estate_agent.py]: the stored keys and the search button *)
Module RapidPage.
Import Py.
Local Open Scope py_scope.

(** What the two key functions show on the page. *)
Inductive notice : Type :=
| SecretsNotFound
| ConnectingFailed (e : exn)
| RowIncomplete
| NoKeysFound
| RetrievingFailed (e : exn).

(** [len(v)] *)
Definition len (v : pyval) : res nat :=
  match v with
  | PStr s => Ok (String.length s)
  | PList l => Ok (List.length l)
  | PDict d => Ok (List.length d)
  | _ => Raise TypeError
  end.

(** [v[0]]: the first element of a list, the first character of a string;
    a dict of a decoded document has string keys only.  [IndexError] is
    among [OtherException]. *)
Definition first_item (v : pyval) : res pyval :=
  match v with
  | PList (x :: _) => Ok x
  | PStr (String c _) => Ok (PStr (String c EmptyString))
  | PList [] | PStr EmptyString => Raise OtherException
  | PDict _ => Raise KeyError
  | _ => Raise TypeError
  end.

Section Keys.

(** The Supabase client. *)
Variable client : Type.
(** [st.secrets[name]] *)
Variable secrets : string -> res pyval.
Variable create_client : pyval -> pyval -> res client.
(** [client.table(KEYS_TABLE).select("rapidapi_key, openai_key")
    .eq("id", KEYS_ID).execute().data] *)
Variable select_keys : client -> res pyval.

(** [initialize_supabase] *)
Definition initialize_supabase : option client * list notice :=
  match (supabase_url <- secrets "supabase_url" ;;
         supabase_key <- secrets "supabase_key" ;;
         create_client supabase_url supabase_key) with
  | Ok supabase_client => (Some supabase_client, [])
  | Raise KeyError => (None, [SecretsNotFound])
  | Raise e => (None, [ConnectingFailed e])
  end.

(** The [try] body of [get_keys_from_supabase] after the query. *)
Definition keys_of (data : pyval) : res (option pyval * list notice) :=
  if truthy data then
    n <- len data ;;
    if (0 <? n)%nat then
      keys <- first_item data ;;
      rapidapi_key <- get keys "rapidapi_key" PNone ;;
      if truthy rapidapi_key then
        openai_key <- get keys "openai_key" PNone ;;
        if truthy openai_key then Ok (Some keys, [])
        else Ok (None, [RowIncomplete])
      else Ok (None, [RowIncomplete])
    else Ok (None, [NoKeysFound])
  else Ok (None, [NoKeysFound]).

(** [get_keys_from_supabase] *)
Definition get_keys_from_supabase : option pyval * list notice :=
  match initialize_supabase with
  | (None, shown) => (None, shown)
  | (Some supabase_client, shown) =>
    match (data <- select_keys supabase_client ;; keys_of data) with
    | Ok (keys, shown') => (keys, shown ++ shown')%list
    | Raise e => (None, shown ++ [RetrievingFailed e])%list
    end
  end.

End Keys.

Arguments initialize_supabase {client} secrets create_client.
Arguments get_keys_from_supabase {client} secrets create_client select_keys.

(** The exceptions that leave [main]: [NameError] besides those of the
    calls it makes. *)
Inductive page_exn : Type :=
| NameError
| Uncaught (e : exn).

(** How a click on the search button goes on after the search: into the
    branch of the results (lines 285 to 445) or into an exception. *)
Inductive click : Type :=
| ResultsFound (property_results : list RapidApi.PropertyData)
| ClickRaises (e : page_exn).

Section Button.

Variable repr : pyval -> string.
Variable int_of_str : string -> option Z.
(** The round trip made with a given key. *)
Variable send : pyval -> RapidApi.reply.

(** The button of [main], lines 281 to 285 and 446 to 447: the key is
    taken from the stored keys, the search is run, and its result decides
    the branch; the branch of an empty result formats a message with the
    name [radius], which [main] does not define. *)
Definition search_clicked (api_keys : pyval)
  : click * list RapidApi.ui_event :=
  match getitem api_keys "rapidapi_key" with
  | Raise e => (ClickRaises (Uncaught e), [])
  | Ok rapidapi_key =>
    match RapidApi.search_properties_rapidapi repr int_of_str
            (send rapidapi_key) with
    | (Raise e, shown) => (ClickRaises (Uncaught e), shown)
    | (Ok [], shown) => (ClickRaises NameError, shown)
    | (Ok (p :: ps), shown) => (ResultsFound (p :: ps), shown)
    end
  end.

End Button.

End RapidPage.

(** ** Measures for the further properties *)
Module Measures.
Import Py.

(** How often the character [c] occurs in [s]. *)
Definition count_char (c : ascii) (s : string) : nat :=
  List.length (filter (Ascii.eqb c) (chars s)).

(** [isinstance(v, dict)] and [isinstance(v, list)]. *)
Definition is_dict (v : pyval) : bool :=
  match v with
  | PDict _ => true
  | _ => false
  end.

Definition is_list (v : pyval) : bool :=
  match v with
  | PList _ => true
  | _ => false
  end.


(** The keys of a store, the most recently used first. *)
Definition keys {K V : Type} (c : Lru.store K V) : list K := map fst c.

End Measures.

(* ===================================================================== *)
(** * Part II. Properties                                                  *)
(* ===================================================================== *)

Import Py Notions.

(** ** The tolerant parser [safe_float] *)

Lemma in_float_range_clean (val : pyval) :
  in_float_range (RapidApi.clean val) = in_float_range val.
Proof. destruct val; reflexivity. Qed.

(** [float] raises nothing but [ValueError] and [TypeError] on a value in
    the float range. *)
Lemma float_of_raises (v : pyval) (e : exn) :
  in_float_range v = true -> float_of v = Raise e ->
  e = ValueError \/ e = TypeError.
Proof.
  destruct v as [ | b | n | f | s | l | d]; simpl; intros Hrange Hraise;
    try discriminate; try (injection Hraise as <-; auto).
  - rewrite Hrange in Hraise. discriminate.
  - destruct (parse_float s); [discriminate | injection Hraise as <-; auto].
Qed.

(** On a value that [float] converts or refuses with [ValueError] or
    [TypeError] (every string, [None], every bool, float, list and dict,
    every int in the float range), [safe_float] returns without raising:
    the float of the cleaned value where [float] converts it, the supplied
    default where it refuses. *)
Lemma safe_float_in_range (val default : pyval) :
  in_float_range val = true ->
  RapidApi.safe_float val default
  = Ok match float_of (RapidApi.clean val) with
       | Ok f => PFloat f
       | Raise _ => default
       end.
Proof.
  intros Hrange. unfold RapidApi.safe_float.
  destruct (float_of (RapidApi.clean val)) as [f | e] eqn:Hfloat;
    [reflexivity | ].
  rewrite <- in_float_range_clean in Hrange.
  destruct (float_of_raises _ _ Hrange Hfloat) as [-> | ->]; reflexivity.
Qed.

(** C4: [safe_float] does raise: on an int whose magnitude is beyond the
    float range, [float] raises [OverflowError], which the [except] clause
    of the helper does not list, so the exception leaves [safe_float] and
    the supplied default is not returned. *)
Theorem safe_float_raises_OverflowError :
  forall (n : Z) (default : pyval),
    (float_int_limit <= Z.abs n)%Z ->
    RapidApi.safe_float (PInt n) default = Raise OverflowError.
Proof.
  intros n default Hhuge.
  unfold RapidApi.safe_float, RapidApi.clean, float_of, int_fits_float.
  destruct (Z.abs n <? float_int_limit)%Z eqn:Hfits; [ | reflexivity].
  apply Z.ltb_lt in Hfits. lia.
Qed.

Lemma safe_float_raises_OverflowError_witness :
  RapidApi.safe_float (PInt (10 ^ 400)) PNone = Raise OverflowError.
Proof.
  apply (safe_float_raises_OverflowError (10 ^ 400) PNone).
  vm_compute. discriminate.
Defined.

(** The three kinds of input the specification names. *)
Example safe_float_trailing_plus :
  RapidApi.safe_float (PStr "4+") PNone = Ok (PFloat (Fdec 4 0)).
Proof. reflexivity. Qed.

Example safe_float_null : RapidApi.safe_float PNone (PInt 0) = Ok (PInt 0).
Proof. reflexivity. Qed.

Example safe_float_text : RapidApi.safe_float (PStr "two") PNone = Ok PNone.
Proof. reflexivity. Qed.

(** Beyond the float range the conversion raises [OverflowError], which
    the helper does not handle. *)
Example safe_float_huge_int :
  RapidApi.safe_float (PInt (10 ^ 400)) PNone = Raise OverflowError.
Proof. reflexivity. Qed.

(** ** [parse_location] and [get_regional_data] *)

Lemma parse_location_no_comma (location : string) :
  has_char "," location = false ->
  Us.parse_location location = Ok (location, None).
Proof. unfold Us.parse_location. intros ->. reflexivity. Qed.

Example parse_location_city_state :
  Us.parse_location "Austin, TX" = Ok ("Austin", Some "TX").
Proof. reflexivity. Qed.

Example parse_location_city_only :
  Us.parse_location "Austin" = Ok ("Austin", None).
Proof. reflexivity. Qed.

(** C3: with two commas the split has three parts, the unpacking into
    [city, state] fails and [parse_location] raises [ValueError]. *)
Theorem parse_location_two_commas_raises :
  Us.parse_location "Austin, TX, USA" = Raise ValueError.
Proof. reflexivity. Qed.

Lemma settings_get_unlisted (s : string) :
  existsb (String.eqb s) ["CA"; "TX"; "FL"; "NY"] = false ->
  Us.settings_get s Us.REGIONAL_SETTINGS = None.
Proof.
  simpl. intros H.
  repeat (apply orb_false_elim in H; destruct H as [? H]).
  repeat match goal with Heq : (s =? _)%string = false |- _ =>
    rewrite Heq; clear Heq end.
  reflexivity.
Qed.

(** C10: [get_regional_data] is a total function of the state, a string
    or [None]: the four listed states get their fixed pair, every other
    argument gets the empty dict, in which both lookups of the analysis
    text fall back to 0. *)
Theorem get_regional_data_total :
  forall state : option string,
    (state = Some "CA" /\
     Us.get_regional_data state =
       [("tax_rate", PFloat (Fdec 12 (-3))); ("price_per_sqft", PInt 650)]) \/
    (state = Some "TX" /\
     Us.get_regional_data state =
       [("tax_rate", PFloat (Fdec 21 (-3))); ("price_per_sqft", PInt 200)]) \/
    (state = Some "FL" /\
     Us.get_regional_data state =
       [("tax_rate", PFloat (Fdec 19 (-3))); ("price_per_sqft", PInt 300)]) \/
    (state = Some "NY" /\
     Us.get_regional_data state =
       [("tax_rate", PFloat (Fdec 15 (-3))); ("price_per_sqft", PInt 800)]) \/
    (listed_state state = false /\
     Us.get_regional_data state = [] /\
     Us.prompt_price_per_sqft (Us.get_regional_data state) = PInt 0 /\
     Us.prompt_tax_rate (Us.get_regional_data state) = PInt 0).
Proof.
  intros [s | ].
  - destruct (String.eqb_spec s "CA") as [-> | Hca]; [left; split; reflexivity | ].
    destruct (String.eqb_spec s "TX") as [-> | Htx];
      [right; left; split; reflexivity | ].
    destruct (String.eqb_spec s "FL") as [-> | Hfl];
      [right; right; left; split; reflexivity | ].
    destruct (String.eqb_spec s "NY") as [-> | Hny];
      [right; right; right; left; split; reflexivity | ].
    right; right; right; right.
    assert (Hunlisted : existsb (String.eqb s) ["CA"; "TX"; "FL"; "NY"] = false).
    { simpl. apply String.eqb_neq in Hca, Htx, Hfl, Hny.
      rewrite Hca, Htx, Hfl, Hny. reflexivity. }
    unfold Us.get_regional_data. rewrite (settings_get_unlisted s Hunlisted).
    repeat split; assumption || reflexivity.
  - right; right; right; right. repeat split; reflexivity.
Qed.

(** The state of a location without comma is [None], which is no key. *)
Lemma regional_data_without_state (location : string) :
  has_char "," location = false ->
  exists city : string,
    Us.parse_location location = Ok (city, None) /\
    Us.get_regional_data None = [].
Proof.
  intros H. exists location. split; [apply parse_location_no_comma, H | reflexivity].
Qed.

(** ** The coordinate search and its mapper *)

Section MapperFacts.

Variable repr : pyval -> string.
Variable int_of_str : string -> option Z.

Local Abbreviation map_property := (RapidApi.map_property repr int_of_str).
Local Abbreviation map_records := (RapidApi.map_records repr int_of_str).
Local Abbreviation search := (RapidApi.search_properties_rapidapi repr int_of_str).
Local Abbreviation try_body := (RapidApi.try_body repr int_of_str).

(** The loop appends exactly the records whose mapping succeeds. *)
Lemma map_records_kept (records : list pyval) :
  forall (acc : list RapidApi.PropertyData) (log : list RapidApi.ui_event),
    fst (map_records records acc log) = (acc ++ kept repr int_of_str records)%list.
Proof.
  induction records as [ | p rest IH]; intros acc log; simpl.
  - now rewrite app_nil_r.
  - destruct (map_property p) as [r | e]; rewrite IH; simpl.
    + now rewrite <- app_assoc.
    + reflexivity.
Qed.

Lemma kept_all_ok (records : list pyval) :
  (forall p, In p records -> exists r, map_property p = Ok r) ->
  Forall2 (fun p r => map_property p = Ok r) records (kept repr int_of_str records).
Proof.
  induction records as [ | p rest IH]; intros Hok; simpl.
  - constructor.
  - destruct (Hok p (or_introl eq_refl)) as [r Hr]. rewrite Hr. simpl.
    constructor; [assumption | ]. apply IH. intros q Hq. apply Hok. now right.
Qed.

Lemma kept_app (l1 l2 : list pyval) :
  kept repr int_of_str (l1 ++ l2) =
  (kept repr int_of_str l1 ++ kept repr int_of_str l2)%list.
Proof. unfold kept. apply flat_map_app. Qed.

(** The search never raises: its last [except] clause takes everything. *)
Lemma search_never_raises (r : RapidApi.reply) :
  exists l, fst (search r) = Ok l.
Proof.
  unfold RapidApi.search_properties_rapidapi.
  destruct (try_body r) as [[[early | ] | e] [properties_data log]]; simpl.
  - eauto.
  - eauto.
  - destruct (RapidApi.is_request_exception e); destruct e; simpl; eauto.
Qed.

(** An exception of the [try] body before the loop leaves the list empty. *)
Lemma search_after_early_raise (r : RapidApi.reply) (e : exn)
  (log : list RapidApi.ui_event) :
  try_body r = (Raise e, ([], log)) -> fst (search r) = Ok [].
Proof.
  unfold RapidApi.search_properties_rapidapi. intros ->.
  destruct (RapidApi.is_request_exception e); destruct e; reflexivity.
Qed.

Lemma search_upstream_failure (r : RapidApi.reply) :
  upstream_failure r = true -> fst (search r) = Ok [].
Proof.
  destruct r as [e | status json]; simpl; intros Hfail.
  - apply (search_after_early_raise _ e []). reflexivity.
  - destruct ((400 <=? status)%Z && (status <? 600)%Z) eqn:Hstatus.
    + apply (search_after_early_raise _ HTTPError []).
      unfold RapidApi.try_body, RapidApi.raise_for_status. simpl.
      rewrite Hstatus. reflexivity.
    + destruct json as [v | e]; [discriminate | ].
      apply (search_after_early_raise _ e []).
      unfold RapidApi.try_body, RapidApi.raise_for_status. simpl.
      rewrite Hstatus. reflexivity.
Qed.

Lemma search_lacks_listings (status : Z) (v : pyval) :
  lacks_listings v = true ->
  fst (search (RapidApi.Response status (Ok v))) = Ok [].
Proof.
  intros Hlacks.
  destruct ((400 <=? status)%Z && (status <? 600)%Z) eqn:Hstatus.
  - apply search_upstream_failure. simpl. now rewrite Hstatus.
  - destruct v as [ | b | n | f | s | l | d];
      try (apply (search_after_early_raise _ AttributeError []);
           unfold RapidApi.try_body, RapidApi.raise_for_status; simpl;
           rewrite Hstatus; reflexivity).
    simpl in Hlacks.
    unfold RapidApi.search_properties_rapidapi, RapidApi.try_body,
      RapidApi.raise_for_status. simpl. rewrite Hstatus. simpl.
    rewrite Hlacks. reflexivity.
Qed.

(** A response with listings: the result is what the loop keeps. *)
Lemma search_listings (status : Z) (d : items) (p : pyval) (ps : list pyval) :
  RapidApi.raise_for_status status = Ok tt ->
  lookup "properties" d = Some (PList (p :: ps)) ->
  fst (search (RapidApi.Response status (Ok (PDict d)))) =
  Ok (kept repr int_of_str (p :: ps)).
Proof.
  intros Hstatus Hprops.
  unfold RapidApi.search_properties_rapidapi, RapidApi.try_body. simpl.
  rewrite Hstatus. simpl. unfold dict_get. rewrite Hprops.
  cbn [truthy negb RapidApi.iterate].
  pose proof (map_records_kept (p :: ps) [] []) as Hkept.
  destruct (map_records (p :: ps) [] []) as [properties_data log].
  simpl in Hkept. subst properties_data. reflexivity.
Qed.

End MapperFacts.

Section MapperInversion.

Variable repr : pyval -> string.
Variable int_of_str : string -> option Z.

Local Abbreviation map_property := (RapidApi.map_property repr int_of_str).

(** A record that was built passed the validation of each field. *)
Lemma new_PropertyData_ok
  (bn pt la pr de sq be ba : pyval) (r : RapidApi.PropertyData) :
  RapidApi.new_PropertyData int_of_str bn pt la pr de sq be ba = Ok r ->
  RapidApi.validate_str bn = Some (RapidApi.building_name r) /\
  RapidApi.validate_str pt = Some (RapidApi.property_type r) /\
  RapidApi.validate_float pr = Some (RapidApi.price r) /\
  RapidApi.validate_optional RapidApi.validate_float sq =
    Some (RapidApi.square_feet r) /\
  RapidApi.validate_optional (RapidApi.validate_int int_of_str) be =
    Some (RapidApi.bedrooms r) /\
  RapidApi.validate_optional RapidApi.validate_float ba =
    Some (RapidApi.bathrooms r).
Proof.
  unfold RapidApi.new_PropertyData.
  destruct (RapidApi.validate_str bn); [ | discriminate].
  destruct (RapidApi.validate_str pt); [ | discriminate].
  destruct (RapidApi.validate_str la); [ | discriminate].
  destruct (RapidApi.validate_float pr); [ | discriminate].
  destruct (RapidApi.validate_str de); [ | discriminate].
  destruct (RapidApi.validate_optional RapidApi.validate_float sq);
    [ | discriminate].
  destruct (RapidApi.validate_optional (RapidApi.validate_int int_of_str) be);
    [ | discriminate].
  destruct (RapidApi.validate_optional RapidApi.validate_float ba);
    [ | discriminate].
  intros [= <-]. simpl. repeat split; reflexivity.
Qed.

(** What a successful mapping of a dict went through: the nested blocks
    were dicts, [safe_float] returned, and the validation accepted the
    price, the name, the type and the three optional fields. *)
Lemma map_property_ok (d : items) (r : RapidApi.PropertyData) :
  map_property (PDict d) = Ok r ->
  exists (loc addr desc : items) (baths : pyval),
    dict_get d "location" (PDict []) = PDict loc /\
    dict_get loc "address" (PDict []) = PDict addr /\
    dict_get d "description" (PDict []) = PDict desc /\
    RapidApi.safe_float (dict_get desc "baths_consolidated" PNone) PNone
      = Ok baths /\
    RapidApi.validate_float
      (py_or (dict_get d "list_price" PNone) (PFloat (Fdec 0 0)))
      = Some (RapidApi.price r) /\
    RapidApi.validate_str (py_or (dict_get addr "line" PNone) (PStr "N/A"))
      = Some (RapidApi.building_name r) /\
    RapidApi.validate_str (py_or (dict_get desc "type" PNone) (PStr "N/A"))
      = Some (RapidApi.property_type r) /\
    RapidApi.validate_optional RapidApi.validate_float
      (dict_get desc "sqft" PNone) = Some (RapidApi.square_feet r) /\
    RapidApi.validate_optional (RapidApi.validate_int int_of_str)
      (dict_get desc "beds" PNone) = Some (RapidApi.bedrooms r) /\
    RapidApi.validate_optional RapidApi.validate_float baths
      = Some (RapidApi.bathrooms r).
Proof.
  unfold RapidApi.map_property. cbn [get bind].
  destruct (dict_get d "location" (PDict [])) as [ | | | | | | loc] eqn:Hloc;
    try discriminate.
  cbn [get bind].
  destruct (dict_get loc "address" (PDict [])) as [ | | | | | | addr] eqn:Haddr;
    try discriminate.
  destruct (dict_get d "description" (PDict [])) as [ | | | | | | desc] eqn:Hdesc;
    try discriminate.
  cbn [get bind].
  destruct (RapidApi.safe_float (dict_get desc "baths_consolidated" PNone) PNone)
    as [baths | e] eqn:Hbaths; [ | discriminate].
  cbn [bind]. intros Hnew.
  apply new_PropertyData_ok in Hnew.
  destruct Hnew as (Hbn & Hpt & Hpr & Hsq & Hbe & Hba).
  exists loc, addr, desc, baths. repeat split; assumption.
Qed.

End MapperInversion.

Section MapperClaims.

Variable repr : pyval -> string.
Variable int_of_str : string -> option Z.

Local Abbreviation map_property := (RapidApi.map_property repr int_of_str).
Local Abbreviation search := (RapidApi.search_properties_rapidapi repr int_of_str).

(** C6: in a batch with exactly one record whose mapping raises, at any
    position, the search returns the mapped records of all the others, in
    their order: one record fewer than the batch holds. *)
Theorem one_malformed_record_is_skipped :
  forall (status : Z) (d : items) (before after : list pyval) (bad : pyval),
    RapidApi.raise_for_status status = Ok tt ->
    lookup "properties" d = Some (PList (before ++ bad :: after)) ->
    (forall p, In p (before ++ after) -> exists r, map_property p = Ok r) ->
    (exists e, map_property bad = Raise e) ->
    exists l : list RapidApi.PropertyData,
      fst (search (RapidApi.Response status (Ok (PDict d)))) = Ok l /\
      List.length l = (List.length (before ++ bad :: after) - 1)%nat /\
      Forall2 (fun p r => map_property p = Ok r) (before ++ after) l.
Proof.
  intros status d before after bad Hstatus Hprops Hgood [e Hbad].
  exists (kept repr int_of_str (before ++ after)).
  assert (Hall : Forall2 (fun p r => map_property p = Ok r) (before ++ after)
                   (kept repr int_of_str (before ++ after)))
    by (apply kept_all_ok, Hgood).
  assert (Hkept : kept repr int_of_str (before ++ bad :: after) =
                  kept repr int_of_str (before ++ after)).
  { rewrite !kept_app. f_equal. simpl. now rewrite Hbad. }
  split; [ | split].
  - destruct (before ++ bad :: after)%list as [ | p ps] eqn:Hbatch.
    + destruct before; discriminate.
    + rewrite (search_listings repr int_of_str status d p ps Hstatus Hprops).
      now rewrite Hkept.
  - rewrite <- (Forall2_length Hall). rewrite !length_app. simpl. lia.
  - exact Hall.
Qed.

End MapperClaims.

Section MapperDesign.

Variable repr : pyval -> string.
Variable int_of_str : string -> option Z.

Local Abbreviation map_property := (RapidApi.map_property repr int_of_str).
Local Abbreviation search := (RapidApi.search_properties_rapidapi repr int_of_str).

(** C5, as the code has it: a raw record whose [list_price] is the text
    "350,000+" reaches the validation uncleaned and no record is built
    from it; the search skips it and goes on: on a batch that holds the
    record, at any position, it returns what it returns on the batch
    without the record, the mapped records of the others in their order;
    [safe_float], which the mapper applies to the bathrooms only, would
    give its default for this text, since it removes the plus sign but
    not the comma. *)
Theorem price_text_with_comma_is_refused :
  forall (status : Z) (payload payload' d : items) (default : pyval)
         (before after : list pyval),
    RapidApi.raise_for_status status = Ok tt ->
    lookup "list_price" d = Some (PStr "350,000+") ->
    lookup "properties" payload = Some (PList (before ++ PDict d :: after)) ->
    lookup "properties" payload' = Some (PList (before ++ after)) ->
    (forall r, map_property (PDict d) <> Ok r) /\
    fst (search (RapidApi.Response status (Ok (PDict payload))))
    = fst (search (RapidApi.Response status (Ok (PDict payload')))) /\
    fst (search (RapidApi.Response status (Ok (PDict payload))))
    = Ok (kept repr int_of_str (before ++ after)) /\
    RapidApi.safe_float (PStr "350,000+") default = Ok default.
Proof.
  intros status payload payload' d default before after Hstatus Hprice
    Hbatch Hrest.
  assert (Hrefused : forall r, map_property (PDict d) <> Ok r).
  { intros r Hok. apply map_property_ok in Hok.
    destruct Hok as (loc & addr & desc & baths & _ & _ & _ & _ & Hpr & _).
    unfold dict_get in Hpr. rewrite Hprice in Hpr. discriminate Hpr. }
  assert (Hkept : kept repr int_of_str (before ++ PDict d :: after)
                  = kept repr int_of_str (before ++ after)).
  { rewrite !kept_app. f_equal. simpl.
    destruct (map_property (PDict d)) as [r | e] eqn:Hmap; [ | reflexivity].
    now destruct (Hrefused r). }
  assert (Hwith : fst (search (RapidApi.Response status (Ok (PDict payload))))
                  = Ok (kept repr int_of_str (before ++ after))).
  { destruct (before ++ PDict d :: after)%list as [ | p ps] eqn:Hlist.
    - destruct before; discriminate.
    - rewrite (search_listings repr int_of_str status payload p ps Hstatus
                 Hbatch).
      now rewrite Hkept. }
  assert (Hwithout :
            fst (search (RapidApi.Response status (Ok (PDict payload'))))
            = Ok (kept repr int_of_str (before ++ after))).
  { destruct (before ++ after)%list as [ | p ps] eqn:Hlist.
    - apply search_lacks_listings. simpl. unfold dict_get.
      now rewrite Hrest.
    - apply (search_listings repr int_of_str status payload' p ps Hstatus
               Hrest). }
  split; [exact Hrefused | split; [ | split; [exact Hwith | reflexivity]]].
  now rewrite Hwith, Hwithout.
Qed.


End MapperDesign.

Lemma one_malformed_record_is_skipped_witness :
  exists l : list RapidApi.PropertyData,
    fst (RapidApi.search_properties_rapidapi repr_stub int_of_str_stub
           (RapidApi.Response 200
              (Ok (PDict [("properties",
                           PList ([record_complete] ++ PNone
                                  :: [record_without_details]))])))) = Ok l /\
    List.length l =
      (List.length ([record_complete] ++ PNone :: [record_without_details]) - 1)%nat /\
    Forall2 (fun p r =>
               RapidApi.map_property repr_stub int_of_str_stub p = Ok r)
            ([record_complete] ++ [record_without_details]) l.
Proof.
  apply (one_malformed_record_is_skipped repr_stub int_of_str_stub 200
           [("properties",
             PList ([record_complete] ++ PNone :: [record_without_details]))]
           [record_complete] [record_without_details] PNone).
  - reflexivity.
  - reflexivity.
  - intros p [<- | [<- | []]]; eexists; reflexivity.
  - eexists; reflexivity.
Defined.

(** C5, as the specification has it, fails: the record with the price
    text "350,000+" is dropped, and no record with the price 350000 comes
    out of the batch. *)
Lemma price_text_record_is_dropped :
  RapidApi.map_property repr_stub int_of_str_stub record_plus_price
    = Raise ValidationError /\
  exists r : RapidApi.PropertyData,
    fst (RapidApi.search_properties_rapidapi repr_stub int_of_str_stub
           (RapidApi.Response 200
              (Ok (PDict [("properties",
                           PList [record_complete; record_plus_price])]))))
      = Ok [r] /\
    RapidApi.price r = Fdec 425000 0.
Proof. split; [reflexivity | eexists; split; reflexivity]. Qed.

Lemma price_text_with_comma_is_refused_witness :
  let search := RapidApi.search_properties_rapidapi repr_stub int_of_str_stub in
  let batch := ([record_complete] ++ record_plus_price
                :: [record_without_details])%list in
  let others := ([record_complete] ++ [record_without_details])%list in
  (forall r, RapidApi.map_property repr_stub int_of_str_stub record_plus_price
             <> Ok r) /\
  fst (search (RapidApi.Response 200 (Ok (PDict [("properties", PList batch)]))))
  = fst (search (RapidApi.Response 200
                   (Ok (PDict [("properties", PList others)])))) /\
  fst (search (RapidApi.Response 200 (Ok (PDict [("properties", PList batch)]))))
  = Ok (kept repr_stub int_of_str_stub others) /\
  RapidApi.safe_float (PStr "350,000+") PNone = Ok PNone.
Proof.
  apply (price_text_with_comma_is_refused repr_stub int_of_str_stub 200
           [("properties",
             PList ([record_complete] ++ record_plus_price
                    :: [record_without_details]))]
           [("properties",
             PList ([record_complete] ++ [record_without_details]))]
           [("list_price", PStr "350,000+"); ("location", sample_location);
            ("description", PDict [("type", PStr "condo"); ("beds", PInt 3);
                                   ("baths_consolidated", PStr "2");
                                   ("sqft", PInt 1100)])]
           PNone [record_complete] [record_without_details]);
    reflexivity.
Defined.

(** The batch of three also shows it: two records come out, the first and
    the third, and the page log holds one error, that of the validation. *)
Example price_text_record_is_reported :
  exists r1 r3 : RapidApi.PropertyData,
    RapidApi.search_properties_rapidapi repr_stub int_of_str_stub
      (RapidApi.Response 200
         (Ok (PDict [("properties",
                      PList [record_complete; record_plus_price;
                             record_without_details])])))
    = (Ok [r1; r3], [RapidApi.StError ValidationError]) /\
    RapidApi.map_property repr_stub int_of_str_stub record_complete = Ok r1 /\
    RapidApi.map_property repr_stub int_of_str_stub record_without_details
    = Ok r3.
Proof. eexists. eexists. repeat split; reflexivity. Qed.

(** A record whose bathrooms are an int beyond the float range: the
    exception of [safe_float] ends its mapping, and the search reports
    the record and returns without it. *)
Example huge_bathrooms_record_is_reported :
  let record :=
    PDict [("list_price", PInt 425000); ("location", sample_location);
           ("description", PDict [("baths_consolidated", PInt (10 ^ 400))])] in
  RapidApi.map_property repr_stub int_of_str_stub record
  = Raise OverflowError /\
  RapidApi.search_properties_rapidapi repr_stub int_of_str_stub
    (RapidApi.Response 200
       (Ok (PDict [("properties", PList [record_complete; record])])))
  = (fst (RapidApi.search_properties_rapidapi repr_stub int_of_str_stub
            (RapidApi.Response 200
               (Ok (PDict [("properties", PList [record_complete])])))),
     [RapidApi.StError OverflowError]).
Proof. split; vm_compute; reflexivity. Qed.



(** ** The instruction texts *)

Lemma append_assoc (a b c : string) :
  ((a ++ b) ++ c = a ++ (b ++ c))%string.
Proof. induction a as [ | x a IH]; simpl; [reflexivity | now rewrite IH]. Qed.

Lemma prefixb_spec (p s : string) :
  prefixb p s = true -> exists rest : string, s = (p ++ rest)%string.
Proof.
  revert s. induction p as [ | a p IH]; intros s H.
  - exists s. reflexivity.
  - destruct s as [ | b s]; [discriminate | ]. simpl in H.
    apply andb_prop in H. destruct H as [Hab Hrest].
    apply Ascii.eqb_eq in Hab. subst b.
    destruct (IH s Hrest) as [rest ->]. exists rest. reflexivity.
Qed.

Lemma prefixb_append (p rest : string) : prefixb p (p ++ rest) = true.
Proof.
  induction p as [ | a p IH]; simpl; [reflexivity | ].
  now rewrite Ascii.eqb_refl, IH.
Qed.

Lemma before_suffix_spec (l s b : string) :
  before_suffix l s = Some b -> s = (b ++ l)%string.
Proof.
  revert b. induction s as [ | c s IH]; intros b; cbn [before_suffix].
  - destruct (String.eqb_spec EmptyString l) as [<- | _]; [ | discriminate].
    now intros [= <-].
  - destruct (String.eqb_spec (String c s) l) as [<- | _].
    + now intros [= <-].
    + destruct (before_suffix l s) as [b' | ]; [ | discriminate].
      cbn [option_map]. intros [= <-]. cbn [append].
      now rewrite (IH b' eq_refl).
Qed.

Lemma contains_containsb (sub s : string) :
  contains sub s -> containsb sub s = true.
Proof.
  intros (before & after & ->).
  induction before as [ | c before IH].
  - cbn [append].
    assert (Hp : prefixb sub (sub ++ after) = true) by apply prefixb_append.
    destruct (sub ++ after)%string; cbn [containsb]; now rewrite Hp.
  - cbn [append containsb]. rewrite IH. apply orb_true_r.
Qed.

(** A text that follows more text still holds what it held. *)
Lemma contains_skip (sub pre s : string) :
  contains sub s -> contains sub (pre ++ s).
Proof.
  intros (before & after & ->). exists (pre ++ before)%string, after.
  now rewrite append_assoc.
Qed.

(** A field [x] between the literal [lit], which ends in [l], and the
    text [tail], which starts with [r]: the text [l ++ x ++ r] is there. *)
Lemma contains_field (l x r lit tail : string) :
  before_suffix l lit <> None ->
  prefixb r tail = true ->
  contains (l ++ x ++ r) (lit ++ x ++ tail).
Proof.
  intros Hl Hr.
  destruct (before_suffix l lit) as [b | ] eqn:Hb; [ | contradiction].
  apply before_suffix_spec in Hb. subst lit.
  destruct (prefixb_spec r tail Hr) as [rest ->].
  exists b, rest. now rewrite !append_assoc.
Qed.

Lemma contains_literal (l lit tail : string) :
  before_suffix l lit <> None -> contains l (lit ++ tail).
Proof.
  intros Hl.
  destruct (before_suffix l lit) as [b | ] eqn:Hb; [ | contradiction].
  apply before_suffix_spec in Hb. subst lit.
  exists b, tail. now rewrite append_assoc.
Qed.

Lemma contains_labelled (l x lit tail : string) :
  before_suffix l lit <> None -> contains (l ++ x) (lit ++ x ++ tail).
Proof.
  intros Hl.
  destruct (before_suffix l lit) as [b | ] eqn:Hb; [ | contradiction].
  apply before_suffix_spec in Hb. subst lit.
  exists b, tail. now rewrite !append_assoc.
Qed.

Lemma containsb_contains (sub s : string) :
  containsb sub s = true -> contains sub s.
Proof.
  induction s as [ | c s IH]; cbn [containsb]; intros H;
    apply orb_prop in H; destruct H as [H | H]; try discriminate.
  - destruct (prefixb_spec _ _ H) as [rest ->]. exists EmptyString, rest.
    reflexivity.
  - destruct (prefixb_spec _ _ H) as [rest ->]. exists EmptyString, rest.
    reflexivity.
  - apply (contains_skip sub (String c EmptyString) s). apply IH, H.
Qed.

Ltac suffix_found := vm_compute; discriminate.

(** C9, as the code has it: the analysis text of the category based
    search names, for every listing and every filter set, the property
    category, the property type and the maximum price as it is printed,
    and asks twice for 5-6 properties with prices closest to that
    maximum; the extraction prompt of the U.S. search names the location,
    the property type and the maximum price with thousands separators,
    and asks for 3 to 10 properties, and the analysis text of the U.S.
    search asks for the top 3 value picks. *)
Theorem prompts_restate_constraints :
  forall (repr tax_rate_field : pyval -> string)
         (properties max_price : pyval)
         (property_category property_type location : string)
         (us_max_price : Z) (bedrooms : option Z) (regional_data : items),
    let analysis :=
      Crores.analysis_prompt repr properties max_price property_category
        property_type in
    let price := format_value repr max_price in
    let extraction :=
      Us.search_prompt location us_max_price property_type bedrooms in
    let us_analysis :=
      Us.analysis_prompt repr tax_rate_field properties regional_data in
    (contains ("Property Category: " ++ property_category) analysis /\
     contains ("Property Type: " ++ property_type) analysis /\
     contains ("Maximum Price: " ++ price ++ " crores") analysis /\
     contains ("select 5-6 properties with prices closest to " ++ price
               ++ " crores") analysis /\
     contains ("List only 5-6 best matching properties with prices closest to "
               ++ price ++ " crores") analysis) /\
    (contains ("Location: " ++ location) extraction /\
     contains ("Max Price: $" ++ Us.format_comma_0f us_max_price) extraction /\
     contains ("Property Type: " ++ property_type) extraction /\
     contains "Minimum 3 properties, maximum 10" extraction /\
     contains "Top 3 value picks" us_analysis).
Proof.
  intros repr tax_rate_field properties max_price property_category
    property_type location us_max_price bedrooms regional_data analysis price
    extraction us_analysis.
  subst analysis price extraction us_analysis.
  unfold Crores.analysis_prompt, Us.search_prompt, Us.analysis_prompt.
  split; repeat split.
  - do 2 apply contains_skip. apply contains_labelled. suffix_found.
  - do 4 apply contains_skip. apply contains_labelled. suffix_found.
  - do 6 apply contains_skip.
    apply contains_field; [suffix_found | reflexivity].
  - do 8 apply contains_skip.
    apply contains_field; [suffix_found | reflexivity].
  - do 10 apply contains_skip.
    apply contains_field; [suffix_found | reflexivity].
  - apply contains_labelled. suffix_found.
  - do 2 apply contains_skip. apply contains_labelled. suffix_found.
  - do 4 apply contains_skip. apply contains_labelled. suffix_found.
  - do 8 apply contains_skip. apply containsb_contains. reflexivity.
  - do 6 apply contains_skip. apply containsb_contains. reflexivity.
Qed.

(** The category based search hands just this text to the model. *)
Lemma find_properties_runs_analysis
  (repr : pyval -> string) (schema : items)
  (extract : list string -> items -> res pyval)
  (agent_run : string -> res string)
  (city : string) (max_price : pyval) (property_category property_type : string)
  (answer : string) :
  Crores.find_properties repr schema extract agent_run city max_price
    property_category property_type = Ok answer ->
  exists properties : pyval,
    agent_run (Crores.analysis_prompt repr properties max_price
                 property_category property_type) = Ok answer.
Proof.
  unfold Crores.find_properties.
  destruct (extract _ _) as [raw | e]; [ | discriminate]. cbn [bind].
  destruct (Crores.properties_of raw) as [properties | e]; [ | discriminate].
  cbn [bind]. intros H. exists properties. exact H.
Qed.

(** The texts of the U.S. search ask for no 5-6 properties: the claim C9
    of the specification fails on them. *)
Lemma us_texts_do_not_ask_for_5_6 :
  let extraction := Us.search_prompt "Austin, TX" 450000 "Condo" None in
  let analysis :=
    Us.analysis_prompt repr_stub percent_stub (PList [])
      (Us.get_regional_data (Some "TX")) in
  ~ contains "5-6" extraction /\
  ~ contains "closest" extraction /\
  ~ contains "5-6" analysis /\
  ~ contains "Condo" analysis /\
  ~ contains "450" analysis.
Proof.
  repeat split; intros H; apply contains_containsb in H; vm_compute in H;
    discriminate H.
Qed.

(** ** The store of [lru_cache] *)

Section LruFacts.

Local Open Scope list_scope.

Variables K V : Type.
Variable K_eq_dec : forall a b : K, {a = b} + {a <> b}.

Local Abbreviation find := (Lru.find K_eq_dec).
Local Abbreviation remove := (Lru.remove K_eq_dec).
Local Abbreviation touch := (Lru.touch K_eq_dec).

Lemma find_app (k : K) (front rest : Lru.store K V) :
  ~ In k (map fst front) -> find k (front ++ rest) = find k rest.
Proof.
  induction front as [ | [k' v'] front IH]; simpl; intros Hnot.
  - reflexivity.
  - destruct (K_eq_dec k k') as [-> | _]; [tauto | apply IH; tauto].
Qed.

Lemma find_none (k : K) (c : Lru.store K V) :
  find k c = None -> ~ In k (map fst c).
Proof.
  induction c as [ | [k' v'] c IH]; simpl; intros Hfind.
  - tauto.
  - destruct (K_eq_dec k k') as [-> | Hne]; [discriminate | ].
    intros [Heq | Hin]; [now apply Hne | now apply IH].
Qed.

Lemma remove_app_out (k : K) (front rest : Lru.store K V) :
  ~ In k (map fst front) ->
  remove k (front ++ rest) = (front ++ remove k rest)%list.
Proof.
  induction front as [ | [k' v'] front IH]; simpl; intros Hnot.
  - reflexivity.
  - destruct (K_eq_dec k k') as [-> | _]; [tauto | ].
    rewrite IH; tauto.
Qed.

Lemma remove_app_in (k : K) (front rest : Lru.store K V) :
  In k (map fst front) ->
  remove k (front ++ rest) = (remove k front ++ rest)%list.
Proof.
  induction front as [ | [k' v'] front IH]; simpl; intros Hin.
  - contradiction.
  - destruct (K_eq_dec k k') as [-> | Hne]; [reflexivity | ].
    rewrite IH; [reflexivity | ]. destruct Hin as [Heq | Hin]; [ | exact Hin].
    now destruct Hne.
Qed.

Lemma remove_keys_incl (k : K) (c : Lru.store K V) :
  incl (map fst (remove k c)) (map fst c).
Proof.
  induction c as [ | [k' v'] c IH]; simpl.
  - apply incl_refl.
  - destruct (K_eq_dec k k').
    + apply incl_tl, incl_refl.
    + simpl. apply incl_cons; [now left | apply incl_tl, IH].
Qed.

Lemma remove_NoDup (k : K) (c : Lru.store K V) :
  NoDup (map fst c) ->
  NoDup (map fst (remove k c)) /\ ~ In k (map fst (remove k c)).
Proof.
  induction c as [ | [k' v'] c IH]; simpl; intros Hnd.
  - split; [constructor | tauto].
  - inversion Hnd as [ | ? ? Hnotin Hnd']; subst.
    destruct (K_eq_dec k k') as [-> | Hne]; [now split | ].
    destruct (IH Hnd') as [IHnd IHnot]. simpl. split.
    + constructor; [ | exact IHnd].
      intros Hin. apply Hnotin. now apply (remove_keys_incl k c).
    + intros [Heq | Hin]; [now apply Hne | now apply IHnot].
Qed.

Lemma remove_length (k : K) (v : V) (c : Lru.store K V) :
  find k c = Some v -> S (List.length (remove k c)) = List.length c.
Proof.
  induction c as [ | [k' v'] c IH]; simpl; [discriminate | ].
  destruct (K_eq_dec k k'); [reflexivity | ].
  intros Hfind. simpl. now rewrite IH.
Qed.

(** A guarded entry is found. *)
Lemma guarded_find (k : K) (v : V) (others : list K) (c : Lru.store K V) :
  guarded k v others c -> find k c = Some v.
Proof.
  intros (front & back & -> & Hnot & _ & _).
  rewrite find_app by exact Hnot. simpl.
  destruct (K_eq_dec k k); [reflexivity | contradiction].
Qed.

(** The entry at the head of the store is guarded. *)
Lemma guarded_head (k : K) (v : V) (others : list K) (c : Lru.store K V) :
  guarded k v others ((k, v) :: c).
Proof.
  exists [], c. repeat split; simpl; try tauto; [constructor | ].
  intros x [].
Qed.

(** A hit on another key moves that key to the front. *)
Lemma guarded_touch (k k' : K) (v v' : V) (others : list K)
  (c : Lru.store K V) :
  k' <> k -> In k' others ->
  guarded k v others c -> guarded k v others (touch k' v' c).
Proof.
  intros Hne Hother (front & back & -> & Hnot & Hnd & Hincl).
  unfold Lru.touch.
  destruct (in_dec K_eq_dec k' (map fst front)) as [Hin | Hout].
  - rewrite remove_app_in by exact Hin.
    exists ((k', v') :: remove k' front), back.
    destruct (remove_NoDup k' front Hnd) as [Hnd' Hnot'].
    repeat split; simpl.
    + intros [Heq | Hin']; [now apply Hne | ].
      apply Hnot. now apply (remove_keys_incl k' front).
    + now constructor.
    + apply incl_cons; [exact Hother | ].
      eapply incl_tran; [apply remove_keys_incl | exact Hincl].
  - rewrite remove_app_out by exact Hout. simpl.
    destruct (K_eq_dec k' k) as [Heq | _]; [contradiction | ].
    exists ((k', v') :: front), (remove k' back).
    repeat split; simpl.
    + intros [Heq | Hin']; [now apply Hne | now apply Hnot].
    + now constructor.
    + now apply incl_cons.
Qed.

(** A miss on another key stores it in front; the entry that a full
    store gives up for it is not the guarded one. *)
Lemma guarded_add (maxsize : nat) (k k' : K) (v v' : V) (others : list K)
  (c : Lru.store K V) :
  k' <> k -> In k' others -> find k' c = None ->
  List.length others < maxsize ->
  guarded k v others c -> guarded k v others (Lru.add maxsize k' v' c).
Proof.
  intros Hne Hother Hmiss Hbound (front & back & -> & Hnot & Hnd & Hincl).
  assert (Hfresh : ~ In k' (map fst front)).
  { apply find_none in Hmiss. rewrite map_app in Hmiss.
    intros Hin. apply Hmiss, in_or_app. now left. }
  assert (Hroom : S (List.length front) <= List.length others).
  { rewrite <- (length_map fst front).
    change (List.length (map fst ((k', v') :: front)) <= List.length others).
    apply NoDup_incl_length; simpl.
    - now constructor.
    - now apply incl_cons. }
  unfold Lru.add.
  destruct (maxsize <=? List.length (front ++ (k, v) :: back))%nat eqn:Hfull.
  - destruct back as [ | entry back].
    + apply Nat.leb_le in Hfull. rewrite length_app in Hfull. simpl in Hfull. lia.
    + rewrite removelast_app by discriminate.
      exists ((k', v') :: front), (removelast (entry :: back)).
      repeat split; simpl.
      * intros [Heq | Hin']; [now apply Hne | now apply Hnot].
      * now constructor.
      * now apply incl_cons.
  - exists ((k', v') :: front), back.
    repeat split; simpl.
    + intros [Heq | Hin']; [now apply Hne | now apply Hnot].
    + now constructor.
    + now apply incl_cons.
Qed.

Lemma add_length (maxsize : nat) (k : K) (v : V) (c : Lru.store K V) :
  0 < maxsize -> List.length c <= maxsize ->
  List.length (Lru.add maxsize k v c) <= maxsize.
Proof.
  intros Hpos Hle. unfold Lru.add.
  destruct (maxsize <=? List.length c)%nat eqn:Hfull; cbn [List.length].
  - apply Nat.leb_le in Hfull.
    destruct c as [ | entry c]; [simpl in Hfull; lia | ].
    assert (Hlast : entry :: c <> []) by discriminate.
    pose proof (f_equal (@List.length _) (app_removelast_last entry Hlast))
      as Hlen.
    rewrite length_app in Hlen. cbn [List.length] in Hlen, Hle. lia.
  - apply Nat.leb_gt in Hfull. lia.
Qed.

End LruFacts.

(** ** The memoized search of the U.S. agent *)

Section SessionFacts.

Local Open Scope list_scope.

Variable K : Type.
Variable K_eq_dec : forall a b : K, {a = b} + {a <> b}.
Variable kwargs_of : K -> items.
Variable extract : nat -> nat -> items -> res pyval.

Local Abbreviation cached_search := (Us.cached_search K_eq_dec kwargs_of extract).
Local Abbreviation run_searches := (Us.run_searches K_eq_dec kwargs_of extract).
Local Abbreviation key_eq_dec := (Us.key_eq_dec K K_eq_dec).

(** A dict as parameters: the key cannot be hashed, nothing is looked up,
    called or stored. *)
Lemma cached_search_dict (self : nat) (d : items) (s : Us.session K) :
  cached_search self (Us.Dict d) s = (Raise TypeError, s).
Proof. reflexivity. Qed.

(** A hit gives the stored result and calls nothing. *)
Lemma cached_search_hit (self : nat) (k : K) (v : pyval) (s : Us.session K) :
  Lru.find key_eq_dec (self, k) (Us.cache s) = Some v ->
  cached_search self (Us.Frozen k) s =
  (Ok v, Us.mkSession (Lru.touch key_eq_dec (self, k) v (Us.cache s))
                      (Us.upstream_calls s)).
Proof. unfold Us.cached_search. simpl. now intros ->. Qed.

(** An exception of the extraction service on a miss is handed on. *)
Lemma cached_search_miss_raises (self : nat) (k : K) (e : exn)
  (s : Us.session K) :
  Lru.find key_eq_dec (self, k) (Us.cache s) = None ->
  extract self (Us.upstream_calls s) (kwargs_of k) = Raise e ->
  fst (cached_search self (Us.Frozen k) s) = Raise e.
Proof.
  unfold Us.cached_search, Us.cached_search_body. simpl.
  now intros -> ->.
Qed.

(** After a call that returned, its entry heads the store. *)
Lemma cached_search_guards (self : nat) (k : K) (v : pyval)
  (others : list (Us.key K)) (s : Us.session K) :
  fst (cached_search self (Us.Frozen k) s) = Ok v ->
  guarded (self, k) v others (Us.cache (snd (cached_search self (Us.Frozen k) s))).
Proof.
  unfold Us.cached_search, Us.cached_search_body. simpl.
  destruct (Lru.find key_eq_dec (self, k) (Us.cache s)) as [result | ].
  - simpl. intros [= ->]. apply guarded_head.
  - destruct (extract self (Us.upstream_calls s) (kwargs_of k)) as [result | e];
      simpl; [ | discriminate].
    intros [= ->]. apply guarded_head.
Qed.

(** One more search keeps a guarded entry guarded, when its key is the
    guarded one or one of [others]. *)
Lemma cached_search_keeps_guarded (key : Us.key K) (v : pyval)
  (others : list (Us.key K)) (self : nat) (params : Us.search_params K)
  (s : Us.session K) :
  List.length others < Us.maxsize ->
  (forall k, params = Us.Frozen k -> (self, k) = key \/ In (self, k) others) ->
  guarded key v others (Us.cache s) ->
  guarded key v others (Us.cache (snd (cached_search self params s))).
Proof.
  intros Hbound Hkeys Hguard. destruct params as [d | k]; [exact Hguard | ].
  unfold Us.cached_search, Us.cached_search_body. simpl.
  pose proof (guarded_find _ _ key_eq_dec _ _ _ _ Hguard) as Hfound.
  destruct (key_eq_dec (self, k) key) as [Heq | Hne].
  - rewrite Heq, Hfound. simpl. apply guarded_head.
  - assert (Hother : In (self, k) others).
    { destruct (Hkeys k eq_refl) as [Heq | Hin]; [contradiction | exact Hin]. }
    destruct (Lru.find key_eq_dec (self, k) (Us.cache s)) as [result | ] eqn:Hfind.
    + simpl. now apply guarded_touch.
    + destruct (extract self (Us.upstream_calls s) (kwargs_of k)) as [result | e];
        simpl; [ | exact Hguard].
      now apply (guarded_add _ _ key_eq_dec).
Qed.

Lemma run_searches_keeps_guarded (key : Us.key K) (v : pyval)
  (others : list (Us.key K)) (calls : list (nat * Us.search_params K)) :
  List.length others < Us.maxsize ->
  (forall self k, In (self, Us.Frozen k) calls ->
                  (self, k) = key \/ In (self, k) others) ->
  forall s : Us.session K,
    guarded key v others (Us.cache s) ->
    guarded key v others (Us.cache (run_searches calls s)).
Proof.
  intros Hbound. induction calls as [ | [self params] calls IH];
    intros Hkeys s Hguard; simpl.
  - exact Hguard.
  - apply IH.
    + intros self' k' Hin. apply Hkeys. now right.
    + apply cached_search_keeps_guarded; [exact Hbound | | exact Hguard].
      intros k ->. apply Hkeys. now left.
Qed.

(** The store never grows beyond [maxsize] entries. *)
Lemma cached_search_bounded (self : nat) (params : Us.search_params K)
  (s : Us.session K) :
  List.length (Us.cache s) <= Us.maxsize ->
  List.length (Us.cache (snd (cached_search self params s))) <= Us.maxsize.
Proof.
  intros Hle. destruct params as [d | k]; [exact Hle | ].
  unfold Us.cached_search, Us.cached_search_body. cbn [Us.make_key].
  destruct (Lru.find key_eq_dec (self, k) (Us.cache s)) as [result | ] eqn:Hfind.
  - cbn [snd Us.cache]. unfold Lru.touch. cbn [List.length].
    now rewrite (remove_length _ _ key_eq_dec _ _ _ Hfind).
  - destruct (extract self (Us.upstream_calls s) (kwargs_of k)) as [result | e];
      cbn [snd Us.cache Us.upstream_calls]; [ | exact Hle].
    apply add_length; [unfold Us.maxsize; lia | exact Hle].
Qed.

Lemma run_searches_bounded (calls : list (nat * Us.search_params K)) :
  forall s : Us.session K,
    List.length (Us.cache s) <= Us.maxsize ->
    List.length (Us.cache (run_searches calls s)) <= Us.maxsize.
Proof.
  induction calls as [ | [self params] calls IH]; intros s Hle; simpl.
  - exact Hle.
  - apply IH, cached_search_bounded, Hle.
Qed.

(** C7, as the code has it: the store is bounded at 100 entries.  An entry
    that a call just returned is still there, and is returned without a
    call to the extraction service, after any run of searches whose keys
    other than its own come from fewer than 100 keys; and the store never
    holds more than 100 entries. *)
Theorem cached_entry_survives_bounded_traffic :
  forall (self : nat) (k : K) (v : pyval) (s : Us.session K)
         (between : list (nat * Us.search_params K))
         (others : list (Us.key K)),
    fst (cached_search self (Us.Frozen k) s) = Ok v ->
    List.length others < Us.maxsize ->
    (forall self' k', In (self', Us.Frozen k') between ->
                      (self', k') = (self, k) \/ In (self', k') others) ->
    let s1 := snd (cached_search self (Us.Frozen k) s) in
    let s2 := run_searches between s1 in
    cached_search self (Us.Frozen k) s2 =
      (Ok v, Us.mkSession (Lru.touch key_eq_dec (self, k) v (Us.cache s2))
                          (Us.upstream_calls s2)) /\
    (List.length (Us.cache s) <= Us.maxsize ->
     List.length (Us.cache s2) <= Us.maxsize).
Proof.
  intros self k v s between others Hcall Hbound Hkeys s1 s2. split.
  - apply cached_search_hit.
    apply (guarded_find _ _ key_eq_dec (self, k) v others).
    apply run_searches_keeps_guarded; [exact Hbound | exact Hkeys | ].
    apply cached_search_guards, Hcall.
  - intros Hle. apply run_searches_bounded, cached_search_bounded, Hle.
Qed.

End SessionFacts.

Section SearchFacts.

Variable K : Type.
Variable K_eq_dec : forall a b : K, {a = b} + {a <> b}.
Variable kwargs_of : K -> items.
Variable schema : items.
Variable extract : nat -> nat -> items -> res pyval.
Variable agent_run : string -> res string.
Variable repr : pyval -> string.
Variable tax_rate_field : pyval -> string.

Local Abbreviation find_properties :=
  (Us.find_properties K_eq_dec kwargs_of schema extract agent_run repr
     tax_rate_field).

(** The search of the U.S. agent returns for no input: the request it
    builds is a dict, which the memoized call refuses. *)
Lemma find_properties_never_returns (self : nat) (location : string)
  (max_price : Z) (property_type : string) (bedrooms : option Z)
  (s : Us.session K) :
  exists e : exn,
    find_properties self location max_price property_type bedrooms s
    = (Raise e, s).
Proof.
  unfold Us.find_properties.
  destruct (Us.parse_location location) as [[city state] | e].
  - exists TypeError. reflexivity.
  - exists e. reflexivity.
Qed.

(** C1: the search of the claim, made twice in one session, raises
    [TypeError] both times and leaves the session as it was: no result is
    stored or returned, and the extraction service is not called. *)
Theorem repeated_search_raises_TypeError :
  forall (self : nat) (s : Us.session K),
    let search := find_properties self "Austin, TX" 450000 "Condo" None in
    search s = (Raise TypeError, s) /\
    search (snd (search s)) = (Raise TypeError, s).
Proof. intros self s. split; reflexivity. Qed.

End SearchFacts.

(** C2, as the code has it: the coordinate search never raises, and it
    returns the empty list when the round trip fails (no response, a 4xx
    or 5xx status, a body that does not decode) and when the decoded
    payload holds no listings; the U.S. search turns a response whose
    [success] is false or missing into no listings, and its memoized call
    hands on the exception of a failed extraction. *)
Theorem adapter_failures :
  forall (repr : pyval -> string) (int_of_str : string -> option Z)
         (r : RapidApi.reply) (status : Z) (v : pyval) (d : items)
         (K : Type) (K_eq_dec : forall a b : K, {a = b} + {a <> b})
         (kwargs_of : K -> items) (extract : nat -> nat -> items -> res pyval)
         (self : nat) (k : K) (s : Us.session K) (e : exn),
    (exists l : list RapidApi.PropertyData,
       fst (RapidApi.search_properties_rapidapi repr int_of_str r) = Ok l) /\
    (upstream_failure r = true ->
     fst (RapidApi.search_properties_rapidapi repr int_of_str r) = Ok []) /\
    (lacks_listings v = true ->
     fst (RapidApi.search_properties_rapidapi repr int_of_str
            (RapidApi.Response status (Ok v))) = Ok []) /\
    (truthy (dict_get d "success" PNone) = false ->
     Us.properties_of (PDict d) = Ok (PList [])) /\
    (Lru.find (Us.key_eq_dec K K_eq_dec) (self, k) (Us.cache s) = None ->
     extract self (Us.upstream_calls s) (kwargs_of k) = Raise e ->
     fst (Us.cached_search K_eq_dec kwargs_of extract self (Us.Frozen k) s)
     = Raise e).
Proof.
  intros. split; [apply search_never_raises | ].
  split; [apply search_upstream_failure | ].
  split; [apply search_lacks_listings | ].
  split; [ | apply cached_search_miss_raises].
  intros Hsuccess. unfold Us.properties_of. cbn [get bind].
  now rewrite Hsuccess.
Qed.

Lemma adapter_failures_witness :
  fst (RapidApi.search_properties_rapidapi repr_stub int_of_str_stub
         (RapidApi.Response 503 (Ok PNone))) = Ok [] /\
  fst (RapidApi.search_properties_rapidapi repr_stub int_of_str_stub
         (RapidApi.Response 200 (Ok (PDict [("success", PBool false)]))))
    = Ok [] /\
  Us.properties_of (PDict [("success", PBool false)]) = Ok (PList []) /\
  fst (Us.cached_search Nat.eq_dec numbered_kwargs extract_down 0
         (Us.Frozen 0%nat) fresh_session) = Raise ConnectionError.
Proof.
  destruct (adapter_failures repr_stub int_of_str_stub
              (RapidApi.Response 503 (Ok PNone)) 200
              (PDict [("success", PBool false)]) [("success", PBool false)]
              nat Nat.eq_dec numbered_kwargs extract_down 0%nat 0%nat
              fresh_session ConnectionError)
    as (_ & Hfail & Hlacks & Hsuccess & Hraise).
  split; [ | split; [ | split]].
  - apply Hfail. reflexivity.
  - apply Hlacks. reflexivity.
  - apply Hsuccess. reflexivity.
  - apply Hraise; reflexivity.
Defined.

(** C2, as the specification has it, fails on the U.S. search: a
    successful response without the [data] key raises [KeyError], and an
    extraction service that cannot be reached makes the memoized call
    raise.  In the coordinate search a status outside 2xx that is no 4xx
    or 5xx does not empty the result. *)
Lemma extraction_failures_are_raised :
  Us.properties_of (PDict [("success", PBool true)]) = Raise KeyError /\
  fst (Us.cached_search Nat.eq_dec numbered_kwargs extract_down 0
         (Us.Frozen 0%nat) fresh_session) = Raise ConnectionError /\
  exists r : RapidApi.PropertyData,
    fst (RapidApi.search_properties_rapidapi repr_stub int_of_str_stub
           (RapidApi.Response 300
              (Ok (PDict [("properties", PList [record_complete])]))))
    = Ok [r].
Proof. split; [ | split; [ | eexists]]; reflexivity. Qed.

(** C7, as the specification has it, fails: the entry of the first search
    is stored, and after the searches with 100 other parameter sets it is
    gone; the same search is then sent to the extraction service again,
    as its call number 102, and returns a new result. *)
Lemma entry_evicted_after_100_other_keys :
  let search := Us.cached_search Nat.eq_dec numbered_kwargs extract_stub 0 in
  let first := search (Us.Frozen 0%nat) fresh_session in
  let s2 :=
    Us.run_searches Nat.eq_dec numbered_kwargs extract_stub (searches 1 100)
      (snd first) in
  let again := search (Us.Frozen 0%nat) s2 in
  fst first = Ok (answer 0) /\
  Lru.find (Us.key_eq_dec nat Nat.eq_dec) (0%nat, 0%nat) (Us.cache (snd first))
    = Some (answer 0) /\
  Lru.find (Us.key_eq_dec nat Nat.eq_dec) (0%nat, 0%nat) (Us.cache s2) = None /\
  fst again = Ok (answer 101) /\
  Us.upstream_calls (snd again) = 102%nat.
Proof. vm_compute. repeat split; reflexivity. Qed.

Lemma cached_entry_survives_bounded_traffic_witness :
  let search := Us.cached_search Nat.eq_dec numbered_kwargs extract_stub 0 in
  let s1 := snd (search (Us.Frozen 0%nat) fresh_session) in
  let s2 :=
    Us.run_searches Nat.eq_dec numbered_kwargs extract_stub (searches 1 99) s1 in
  search (Us.Frozen 0%nat) s2 =
    (Ok (answer 0),
     Us.mkSession
       (Lru.touch (Us.key_eq_dec nat Nat.eq_dec) (0%nat, 0%nat) (answer 0)
          (Us.cache s2))
       (Us.upstream_calls s2)) /\
  (List.length (Us.cache fresh_session) <= Us.maxsize ->
   List.length (Us.cache s2) <= Us.maxsize).
Proof.
  apply (cached_entry_survives_bounded_traffic nat Nat.eq_dec numbered_kwargs
           extract_stub 0%nat 0%nat (answer 0) fresh_session (searches 1 99)
           (map (fun k => (0%nat, k)) (seq 1 99))).
  - reflexivity.
  - rewrite length_map, length_seq. unfold Us.maxsize. lia.
  - intros self' k' Hin. right. unfold searches in Hin.
    apply in_map_iff in Hin. destruct Hin as (n & Heq & Hn).
    injection Heq as <- <-. apply in_map_iff. exists n. split; [reflexivity | exact Hn].
Defined.

(* ===================================================================== *)
(** * Part III. Further properties of the sources                          *)
(* ===================================================================== *)

Import Measures.

(** ** Strings as lists of characters *)

Lemma str_chars (s : string) : str (chars s) = s.
Proof. apply string_of_list_ascii_of_string. Qed.

Lemma chars_str (l : list ascii) : chars (str l) = l.
Proof. apply list_ascii_of_string_of_list_ascii. Qed.

Lemma chars_append (a b : string) :
  chars (a ++ b) = (chars a ++ chars b)%list.
Proof. induction a as [ | c a IH]; simpl; [reflexivity | now rewrite IH]. Qed.

Lemma str_app (l1 l2 : list ascii) : str (l1 ++ l2) = (str l1 ++ str l2)%string.
Proof. induction l1 as [ | c l1 IH]; simpl; [reflexivity | now rewrite IH]. Qed.

(** ** [parse_location] on every string *)

Section SplitFacts.

Local Open Scope list_scope.

Variable sep : ascii.

Lemma split_chars_nonempty (l : list ascii) : split_chars sep l <> [].
Proof.
  destruct l as [ | c l]; simpl; [discriminate | ].
  destruct (Ascii.eqb c sep); [discriminate | ].
  destruct (split_chars sep l); discriminate.
Qed.

(** One more part than separators. *)
Lemma split_chars_length (l : list ascii) :
  List.length (split_chars sep l) = S (List.length (filter (Ascii.eqb sep) l)).
Proof.
  induction l as [ | c l IH]; simpl; [reflexivity | ].
  rewrite (Ascii.eqb_sym sep c).
  destruct (Ascii.eqb c sep); simpl.
  - now rewrite IH.
  - destruct (split_chars sep l) as [ | w ws] eqn:Hsplit.
    + now destruct (split_chars_nonempty l).
    + simpl in *. exact IH.
Qed.

(** One part: the text itself. *)
Lemma split_chars_one (l w : list ascii) :
  split_chars sep l = [w] -> l = w.
Proof.
  revert w. induction l as [ | c l IH]; intros w; simpl.
  - now intros [= <-].
  - destruct (Ascii.eqb c sep).
    + intros Hparts. injection Hparts as _ Hrest.
      exfalso. exact (split_chars_nonempty l Hrest).
    + destruct (split_chars sep l) as [ | w' ws] eqn:Hsplit;
        [now destruct (split_chars_nonempty l) | ].
      intros [= <- ->]. f_equal. now apply IH.
Qed.

(** Two parts: the text before the separator and the text after it. *)
Lemma split_chars_two (l a b : list ascii) :
  split_chars sep l = [a; b] -> l = a ++ sep :: b.
Proof.
  revert a. induction l as [ | c l IH]; intros a; simpl; [discriminate | ].
  destruct (Ascii.eqb_spec c sep) as [-> | Hne].
  - intros [= <- Hrest]. simpl. f_equal. now apply split_chars_one.
  - destruct (split_chars sep l) as [ | w ws] eqn:Hsplit;
      [now destruct (split_chars_nonempty l) | ].
    intros [= <- ->]. simpl. f_equal. now apply IH.
Qed.

End SplitFacts.

Lemma has_char_count (c : ascii) (s : string) :
  has_char c s = negb (count_char c s =? 0)%nat.
Proof.
  unfold has_char, count_char.
  induction (chars s) as [ | x l IH]; simpl; [reflexivity | ].
  destruct (Ascii.eqb c x); simpl; [reflexivity | exact IH].
Qed.

(** X1: what [parse_location] does is decided by the number of commas.
    Without comma the location comes back with no state; with exactly one
    comma the text before it, stripped, is the city and the text after
    it, stripped and in upper case, is the state; with two or more commas
    the call raises [ValueError]. *)
Theorem parse_location_by_commas :
  forall location : string,
    (count_char "," location = 0%nat /\
     Us.parse_location location = Ok (location, None)) \/
    (count_char "," location = 1%nat /\
     exists city state : string,
       location = (city ++ "," ++ state)%string /\
       Us.parse_location location
       = Ok (strip city, Some (upper (strip state)))) \/
    (2 <= count_char "," location /\
     Us.parse_location location = Raise ValueError).
Proof.
  intros location.
  pose proof (has_char_count "," location) as Hhas.
  pose proof (split_chars_length "," (chars location)) as Hlen.
  fold (count_char "," location) in Hlen.
  destruct (count_char "," location) as [ | [ | n]] eqn:Hcount.
  - left. split; [reflexivity | ]. now apply parse_location_no_comma.
  - right; left. split; [reflexivity | ].
    simpl in Hhas. unfold Us.parse_location, split. rewrite Hhas.
    destruct (split_chars "," (chars location)) as [ | a [ | b [ | c rest]]] eqn:Hsplit;
      try discriminate Hlen.
    exists (str a), (str b). split; [ | reflexivity].
    apply split_chars_two in Hsplit.
    rewrite <- (str_chars location), Hsplit, str_app. reflexivity.
  - right; right. split; [lia | ].
    simpl in Hhas. unfold Us.parse_location, split. rewrite Hhas.
    destruct (split_chars "," (chars location)) as [ | a [ | b [ | c rest]]];
      try discriminate Hlen.
    reflexivity.
Qed.

(** ** [safe_float] and the mapping of one record *)

Lemma replace_char_drops (c : ascii) (before after : string) :
  replace_char c "" (before ++ String c after)
  = replace_char c "" (before ++ after).
Proof.
  unfold replace_char. rewrite !chars_append, !flat_map_app. simpl.
  now rewrite Ascii.eqb_refl.
Qed.

(** X2: [safe_float] reads a string as if its plus signs were not there,
    wherever they stand: inserting one anywhere changes neither the float
    it returns nor whether it falls back to the default. *)
Theorem safe_float_ignores_plus_signs :
  forall (before after : string) (default : pyval),
    RapidApi.safe_float (PStr (before ++ "+" ++ after)) default
    = RapidApi.safe_float (PStr (before ++ after)) default.
Proof.
  intros before after default. unfold RapidApi.safe_float, RapidApi.clean.
  change ("+" ++ after)%string with (String "+" after).
  now rewrite replace_char_drops.
Qed.

Section RecordFacts.

Variable repr : pyval -> string.
Variable int_of_str : string -> option Z.

Local Abbreviation map_property := (RapidApi.map_property repr int_of_str).
Local Abbreviation map_records := (RapidApi.map_records repr int_of_str).
Local Abbreviation search := (RapidApi.search_properties_rapidapi repr int_of_str).

(** X3: a raw record that is no dict, or whose [location], [address] or
    [description] entry is present but no dict (a JSON null, say), is not
    mapped: the mapping raises [AttributeError]. *)
Theorem malformed_blocks_raise_AttributeError :
  forall prop_api : pyval,
    is_dict prop_api = false \/
    (exists d, prop_api = PDict d /\
       (is_dict (dict_get d "location" (PDict [])) = false \/
        is_dict (dict_get d "description" (PDict [])) = false \/
        exists loc, dict_get d "location" (PDict []) = PDict loc /\
                    is_dict (dict_get loc "address" (PDict [])) = false)) ->
    map_property prop_api = Raise AttributeError.
Proof.
  intros prop_api [Hrecord | (d & -> & Hblocks)].
  - destruct prop_api; try reflexivity. discriminate.
  - unfold RapidApi.map_property. cbn [get bind].
    destruct Hblocks as [Hloc | [Hdesc | (loc & Hloc & Haddr)]].
    + destruct (dict_get d "location" (PDict [])); try reflexivity. discriminate.
    + destruct (dict_get d "location" (PDict [])) as [ | | | | | | loc];
        try reflexivity.
      cbn [get bind].
      destruct (dict_get loc "address" (PDict [])); try reflexivity.
      destruct (dict_get d "description" (PDict [])); try reflexivity.
      discriminate.
    + rewrite Hloc. cbn [get bind].
      destruct (dict_get loc "address" (PDict [])); try reflexivity.
      discriminate.
Qed.

(** X4: a record that was built from a raw record whose [list_price] is
    missing or falsy (null, 0, 0.0, the empty string) has the price 0. *)
Theorem missing_price_becomes_zero :
  forall (d : items) (r : RapidApi.PropertyData),
    map_property (PDict d) = Ok r ->
    truthy (dict_get d "list_price" PNone) = false ->
    RapidApi.price r = Fdec 0 0.
Proof.
  intros d r Hok Hfalsy. apply map_property_ok in Hok.
  destruct Hok as (loc & addr & desc & baths & _ & _ & _ & _ & Hpr & _).
  unfold py_or in Hpr. rewrite Hfalsy in Hpr. simpl in Hpr.
  now injection Hpr.
Qed.

(** X5: a raw record with neither a [location] nor a [description] entry
    is still mapped whenever its price is accepted: name and type are
    "N/A", the address is made of the separators alone, and the three
    optional fields are [None]. *)
Theorem record_without_blocks_is_mapped :
  forall (d : items) (p : pyfloat),
    lookup "location" d = None ->
    lookup "description" d = None ->
    RapidApi.validate_float
      (py_or (dict_get d "list_price" PNone) (PFloat (Fdec 0 0))) = Some p ->
    exists text : string,
      map_property (PDict d)
      = Ok (RapidApi.mkPropertyData "N/A" "N/A" ", ,  " p text None None None).
Proof.
  intros d p Hloc Hdesc Hprice.
  assert (Hl : dict_get d "location" (PDict []) = PDict [])
    by (unfold dict_get; now rewrite Hloc).
  assert (Hd : dict_get d "description" (PDict []) = PDict [])
    by (unfold dict_get; now rewrite Hdesc).
  unfold RapidApi.map_property. cbn [get bind]. rewrite Hl, Hd.
  remember (py_or (dict_get d "list_price" PNone) (PFloat (Fdec 0 0)))
    as price_value eqn:Hvalue.
  cbn. rewrite Hprice. eexists. reflexivity.
Qed.

End RecordFacts.

(** ** The batch as a whole *)

Section BatchFacts.

Local Open Scope list_scope.

Variable repr : pyval -> string.
Variable int_of_str : string -> option Z.

Local Abbreviation map_property := (RapidApi.map_property repr int_of_str).
Local Abbreviation map_records := (RapidApi.map_records repr int_of_str).
Local Abbreviation search := (RapidApi.search_properties_rapidapi repr int_of_str).




Lemma kept_of_strings {A : Type} (f : A -> string) (l : list A) :
  kept repr int_of_str (map (fun x => PStr (f x)) l) = [].
Proof. induction l as [ | x l IH]; simpl; [reflexivity | exact IH]. Qed.

(** X7: when the [properties] entry of the payload is no list (a dict, a
    string, a number, a bool, null), the search returns the empty list:
    what it iterates over is no record, or cannot be iterated at all. *)
Theorem properties_of_wrong_type_give_no_listings :
  forall (status : Z) (d : items) (v : pyval),
    lookup "properties" d = Some v ->
    is_list v = false ->
    fst (search (RapidApi.Response status (Ok (PDict d)))) = Ok [].
Proof.
  intros status d v Hprops Hnolist.
  destruct (RapidApi.raise_for_status status) as [[] | e] eqn:Hstatus.
  - destruct (truthy v) eqn:Htruthy.
    + unfold RapidApi.search_properties_rapidapi, RapidApi.try_body.
      cbn [RapidApi.requests_get bind fst snd]. rewrite Hstatus.
      cbn [bind get]. unfold dict_get. rewrite Hprops, Htruthy.
      cbn [negb].
      destruct v as [ | b | n | f | s | l | items]; try discriminate;
        try reflexivity; cbn [RapidApi.iterate].
      * pose proof (map_records_kept repr int_of_str
                      (map (fun c => PStr (String c "")) (chars s)) [] [])
          as Hkept.
        rewrite kept_of_strings in Hkept.
        destruct (RapidApi.map_records _ _ _ _ _) as [properties_data log].
        simpl in Hkept. now subst.
      * pose proof (map_records_kept repr int_of_str
                      (map (fun kv : string * pyval => PStr (fst kv)) items) [] [])
          as Hkept.
        rewrite kept_of_strings in Hkept.
        destruct (RapidApi.map_records _ _ _ _ _) as [properties_data log].
        simpl in Hkept. now subst.
    + apply search_lacks_listings. simpl. unfold dict_get.
      now rewrite Hprops, Htruthy.
  - apply search_upstream_failure. simpl.
    unfold RapidApi.raise_for_status in Hstatus.
    destruct ((400 <=? status)%Z && (status <? 600)%Z); [reflexivity | discriminate].
Qed.

End BatchFacts.

Lemma malformed_blocks_raise_AttributeError_witness :
  RapidApi.map_property repr_stub int_of_str_stub
    (PDict [("list_price", PInt 425000); ("location", PNone)])
  = Raise AttributeError.
Proof.
  apply malformed_blocks_raise_AttributeError.
  right. eexists. split; [reflexivity | ]. left. reflexivity.
Defined.

Lemma missing_price_becomes_zero_witness :
  exists r : RapidApi.PropertyData,
    RapidApi.map_property repr_stub int_of_str_stub
      (PDict [("list_price", PNone); ("location", sample_location)]) = Ok r /\
    RapidApi.price r = Fdec 0 0.
Proof.
  eexists. split; [reflexivity | ].
  apply (missing_price_becomes_zero repr_stub int_of_str_stub
           [("list_price", PNone); ("location", sample_location)]);
    reflexivity.
Defined.

Lemma record_without_blocks_is_mapped_witness :
  exists text : string,
    RapidApi.map_property repr_stub int_of_str_stub
      (PDict [("list_price", PInt 1200)])
    = Ok (RapidApi.mkPropertyData "N/A" "N/A" ", ,  " (Fdec 1200 0) text
            None None None).
Proof.
  apply (record_without_blocks_is_mapped repr_stub int_of_str_stub
           [("list_price", PInt 1200)] (Fdec 1200 0)); reflexivity.
Defined.


Lemma properties_of_wrong_type_give_no_listings_witness :
  fst (RapidApi.search_properties_rapidapi repr_stub int_of_str_stub
         (RapidApi.Response 200
            (Ok (PDict [("properties", PDict [("0", record_complete)])]))))
  = Ok [].
Proof.
  apply (properties_of_wrong_type_give_no_listings repr_stub int_of_str_stub 200
           [("properties", PDict [("0", record_complete)])]
           (PDict [("0", record_complete)])); reflexivity.
Defined.

(** ** The memoized call on hashable parameters *)

Section MemoFacts.

Local Open Scope list_scope.

Variable K : Type.
Variable K_eq_dec : forall a b : K, {a = b} + {a <> b}.
Variable kwargs_of : K -> items.
Variable extract : nat -> nat -> items -> res pyval.

Local Abbreviation cached_search := (Us.cached_search K_eq_dec kwargs_of extract).
Local Abbreviation run_searches := (Us.run_searches K_eq_dec kwargs_of extract).
Local Abbreviation key_eq_dec := (Us.key_eq_dec K K_eq_dec).

(** X8: a call with a hashable mapping that returned is memoized: the
    same call made right after it returns the same result and does not
    reach the extraction service. *)
Theorem repeated_call_is_served_from_cache :
  forall (self : nat) (k : K) (v : pyval) (s : Us.session K),
    fst (cached_search self (Us.Frozen k) s) = Ok v ->
    let s1 := snd (cached_search self (Us.Frozen k) s) in
    fst (cached_search self (Us.Frozen k) s1) = Ok v /\
    Us.upstream_calls (snd (cached_search self (Us.Frozen k) s1))
    = Us.upstream_calls s1.
Proof.
  intros self k v s Hcall s1.
  assert (Hfound : Lru.find key_eq_dec (self, k) (Us.cache s1) = Some v).
  { apply (guarded_find _ _ key_eq_dec (self, k) v []).
    apply cached_search_guards, Hcall. }
  rewrite (cached_search_hit K K_eq_dec kwargs_of extract self k v s1 Hfound).
  split; reflexivity.
Qed.

(** X9: an exception of the extraction service is not memoized: the call
    raises it, the store stays as it was, and the same call made again
    goes to the extraction service once more. *)
Theorem failed_call_is_not_cached :
  forall (self : nat) (k : K) (e : exn) (s : Us.session K),
    Lru.find key_eq_dec (self, k) (Us.cache s) = None ->
    extract self (Us.upstream_calls s) (kwargs_of k) = Raise e ->
    let s1 := snd (cached_search self (Us.Frozen k) s) in
    fst (cached_search self (Us.Frozen k) s) = Raise e /\
    Us.cache s1 = Us.cache s /\
    Us.upstream_calls s1 = S (Us.upstream_calls s) /\
    fst (cached_search self (Us.Frozen k) s1)
    = extract self (S (Us.upstream_calls s)) (kwargs_of k) /\
    Us.upstream_calls (snd (cached_search self (Us.Frozen k) s1))
    = S (S (Us.upstream_calls s)).
Proof.
  intros self k e s Hmiss Hraise s1. subst s1.
  unfold Us.cached_search, Us.cached_search_body.
  cbn [Us.make_key]. rewrite Hmiss, Hraise.
  cbn [fst snd Us.cache Us.upstream_calls]. rewrite Hmiss.
  repeat split.
  - destruct (extract self (S (Us.upstream_calls s)) (kwargs_of k));
      reflexivity.
  - destruct (extract self (S (Us.upstream_calls s)) (kwargs_of k));
      reflexivity.
Qed.

Lemma removelast_keys_NoDup (c : Lru.store (Us.key K) pyval) :
  NoDup (keys c) -> NoDup (keys (removelast c)).
Proof.
  unfold keys. induction c as [ | entry c IH]; intros Hnd; [exact Hnd | ].
  destruct c as [ | entry' c]; [constructor | ].
  change (removelast (entry :: entry' :: c))
    with (entry :: removelast (entry' :: c)).
  simpl map in *. inversion Hnd as [ | x l Hnotin Hnd' ]; subst.
  constructor; [ | apply IH, Hnd'].
  intros Hin. apply Hnotin.
  assert (Hincl : incl (map fst (removelast (entry' :: c)))
                       (map fst (entry' :: c))).
  { clear. generalize (entry' :: c). intros l.
    induction l as [ | a l IHl]; [apply incl_refl | ].
    destruct l as [ | b l]; [intros x [] | ].
    change (removelast (a :: b :: l)) with (a :: removelast (b :: l)).
    simpl map. apply incl_cons; [now left | apply incl_tl, IHl]. }
  apply Hincl, Hin.
Qed.

Lemma cached_search_keeps_keys_distinct (self : nat)
  (params : Us.search_params K) (s : Us.session K) :
  NoDup (keys (Us.cache s)) ->
  NoDup (keys (Us.cache (snd (cached_search self params s)))).
Proof.
  intros Hnd. destruct params as [d | k]; [exact Hnd | ].
  unfold Us.cached_search, Us.cached_search_body. cbn [Us.make_key].
  destruct (Lru.find key_eq_dec (self, k) (Us.cache s)) as [result | ] eqn:Hfind.
  - cbn [snd Us.cache]. unfold Lru.touch, keys. cbn [map fst].
    destruct (remove_NoDup _ _ key_eq_dec (self, k) (Us.cache s) Hnd)
      as [Hnd' Hnot].
    now constructor.
  - destruct (extract self (Us.upstream_calls s) (kwargs_of k)) as [result | e];
      cbn [snd Us.cache Us.upstream_calls]; [ | exact Hnd].
    unfold Lru.add, keys.
    apply (find_none _ _ key_eq_dec) in Hfind.
    destruct (Us.maxsize <=? List.length (Us.cache s))%nat; cbn [map fst].
    + constructor; [ | now apply removelast_keys_NoDup].
      intros Hin. apply Hfind.
      clear - Hin. revert Hin. generalize (Us.cache s). intros l.
      induction l as [ | a l IHl]; [intros [] | ].
      destruct l as [ | b l]; [intros [] | ].
      change (removelast (a :: b :: l)) with (a :: removelast (b :: l)).
      simpl map. intros [Heq | Hin]; [now left | right; now apply IHl].
    + now constructor.
Qed.

(** X10: the store never holds two entries for one key: if the keys of
    the store are distinct, they are distinct after any run of searches,
    whatever the extraction service answers. *)
Theorem store_keys_stay_distinct :
  forall (calls : list (nat * Us.search_params K)) (s : Us.session K),
    NoDup (keys (Us.cache s)) ->
    NoDup (keys (Us.cache (run_searches calls s))).
Proof.
  induction calls as [ | [self params] calls IH]; intros s Hnd; simpl.
  - exact Hnd.
  - apply IH, cached_search_keeps_keys_distinct, Hnd.
Qed.

End MemoFacts.

Lemma repeated_call_is_served_from_cache_witness :
  let search := Us.cached_search Nat.eq_dec numbered_kwargs extract_stub 0 in
  let s1 := snd (search (Us.Frozen 0%nat) fresh_session) in
  fst (search (Us.Frozen 0%nat) s1) = Ok (answer 0) /\
  Us.upstream_calls (snd (search (Us.Frozen 0%nat) s1)) = Us.upstream_calls s1.
Proof.
  apply (repeated_call_is_served_from_cache nat Nat.eq_dec numbered_kwargs
           extract_stub 0%nat 0%nat (answer 0) fresh_session).
  reflexivity.
Defined.

Lemma failed_call_is_not_cached_witness :
  let search := Us.cached_search Nat.eq_dec numbered_kwargs extract_down 0 in
  let s1 := snd (search (Us.Frozen 0%nat) fresh_session) in
  fst (search (Us.Frozen 0%nat) fresh_session) = Raise ConnectionError /\
  Us.cache s1 = Us.cache fresh_session /\
  Us.upstream_calls s1 = S (Us.upstream_calls fresh_session) /\
  fst (search (Us.Frozen 0%nat) s1)
  = extract_down 0 (S (Us.upstream_calls fresh_session)) (numbered_kwargs 0) /\
  Us.upstream_calls (snd (search (Us.Frozen 0%nat) s1))
  = S (S (Us.upstream_calls fresh_session)).
Proof.
  apply (failed_call_is_not_cached nat Nat.eq_dec numbered_kwargs extract_down
           0%nat 0%nat ConnectionError fresh_session); reflexivity.
Defined.

Lemma store_keys_stay_distinct_witness :
  NoDup (keys (Us.cache (Us.run_searches Nat.eq_dec numbered_kwargs
                           extract_stub (searches 0 3 ++ searches 1 2)
                           fresh_session))).
Proof.
  apply (store_keys_stay_distinct nat Nat.eq_dec numbered_kwargs extract_stub
           (searches 0 3 ++ searches 1 2)%list fresh_session).
  constructor.
Defined.

(** ** The U.S. page *)

Lemma parse_location_raises (location : string) (e : exn) :
  Us.parse_location location = Raise e -> e = ValueError.
Proof.
  unfold Us.parse_location. destruct (has_char "," location); [ | discriminate].
  destruct (map strip (split "," location)) as [ | a [ | b [ | c rest]]];
    try discriminate; now intros [= <-].
Qed.

(** Whether [parse_location] returns is decided by the number of commas. *)
Lemma parse_location_outcome (location : string) :
  ((2 <=? count_char "," location)%nat = false /\
   exists (city : string) (state : option string),
     Us.parse_location location = Ok (city, state)) \/
  ((2 <=? count_char "," location)%nat = true /\
   Us.parse_location location = Raise ValueError).
Proof.
  pose proof (has_char_count "," location) as Hhas.
  pose proof (split_chars_length "," (chars location)) as Hlen.
  fold (count_char "," location) in Hlen.
  unfold Us.parse_location, split.
  destruct (count_char "," location) as [ | [ | n]] eqn:Hcount;
    simpl in Hhas; rewrite Hhas.
  - left. split; [reflexivity | eauto].
  - left. split; [reflexivity | ].
    destruct (split_chars "," (chars location)) as [ | a [ | b [ | c rest]]];
      try discriminate Hlen.
    simpl. eauto.
  - right. split; [reflexivity | ].
    destruct (split_chars "," (chars location)) as [ | a [ | b [ | c rest]]];
      try discriminate Hlen.
    reflexivity.
Qed.

Section UsPageFacts.

Variable K : Type.
Variable K_eq_dec : forall a b : K, {a = b} + {a <> b}.
Variable kwargs_of : K -> items.
Variables schema trends_schema : items.
Variable extract : nat -> nat -> items -> res pyval.
Variable agent_run : string -> res string.
Variable repr : pyval -> string.
Variable tax_rate_field : pyval -> string.

Local Abbreviation find_properties :=
  (Us.find_properties K_eq_dec kwargs_of schema extract agent_run repr
     tax_rate_field).
Local Abbreviation get_market_trends :=
  (UsPage.get_market_trends K_eq_dec kwargs_of trends_schema extract agent_run
     repr).
Local Abbreviation analyze_clicked :=
  (UsPage.analyze_clicked K_eq_dec kwargs_of schema trends_schema extract
     agent_run repr tax_rate_field).

(** The listing search raises [ValueError] or [TypeError], by the number
    of commas, and leaves the session as it was. *)
Lemma listing_search_raises (self : nat) (location : string) (max_price : Z)
  (property_type : string) (bedrooms : option Z) (s : Us.session K) :
  find_properties self location max_price property_type bedrooms s
  = (Raise (if (2 <=? count_char "," location)%nat
            then ValueError else TypeError), s).
Proof.
  unfold Us.find_properties.
  destruct (parse_location_outcome location)
    as [[Hcount [city [state Hparse]]] | [Hcount Hparse]];
    rewrite Hparse, Hcount; reflexivity.
Qed.

(** X11: [get_market_trends] returns for no location, whatever the
    extraction service and the model would answer: it raises [ValueError]
    exactly when the location holds two or more commas and [TypeError]
    (the dict handed to the memoized call) otherwise, and it leaves the
    session as it was, the extraction service uncalled. *)
Theorem market_trends_never_return :
  forall (self : nat) (location : string) (s : Us.session K),
    get_market_trends self location s
    = (Raise (if (2 <=? count_char "," location)%nat
              then ValueError else TypeError), s).
Proof.
  intros self location s. unfold UsPage.get_market_trends.
  destruct (parse_location_outcome location)
    as [[Hcount [city [state Hparse]]] | [Hcount Hparse]];
    rewrite Hparse, Hcount; reflexivity.
Qed.

(** X12: a click on the button never puts an analysis on the page: with
    a key missing the page shows the missing-keys message and builds no
    agent; with both keys it shows one error message and nothing else, for
    a [ValueError] when the location holds two or more commas and for a
    [TypeError] otherwise, and the memoizing session is left as it was. *)
Theorem click_never_shows_an_analysis :
  forall (fresh : nat) (location : string) (max_price : Z)
         (property_type : string) (bedrooms : UsPage.bedrooms_choice)
         (st : UsPage.session_state) (s : Us.session K),
    analyze_clicked fresh location max_price property_type bedrooms st s
    = if (UsPage.firecrawl_key st =? "")%string
         || (UsPage.openai_key st =? "")%string
      then ([UsPage.MissingKeys], st, s)
      else ([UsPage.ErrorMessage
               (if (2 <=? count_char "," location)%nat
                then ValueError else TypeError)],
            UsPage.create_property_agent fresh st, s).
Proof.
  intros fresh location max_price property_type bedrooms st s.
  unfold UsPage.analyze_clicked.
  destruct ((UsPage.firecrawl_key st =? "")%string
            || (UsPage.openai_key st =? "")%string); [reflexivity | ].
  destruct (UsPage.property_agent (UsPage.create_property_agent fresh st))
    as [a | ] eqn:Hagent.
  - now rewrite listing_search_raises.
  - unfold UsPage.create_property_agent in Hagent.
    destruct (UsPage.property_agent st) eqn:Hst; [congruence | discriminate].
Qed.

End UsPageFacts.

(** X13: the agent of a session is built once: whatever model and keys
    are entered in the sidebar afterwards, [create_property_agent] keeps
    the agent of the first click, with the keys and the model of that
    moment. *)
Theorem agent_is_built_once :
  forall (fresh later : nat) (model fire_key open_key : string)
         (st : UsPage.session_state),
    UsPage.property_agent
      (UsPage.create_property_agent later
         (UsPage.sidebar model fire_key open_key
            (UsPage.create_property_agent fresh st)))
    = UsPage.property_agent (UsPage.create_property_agent fresh st) /\
    UsPage.property_agent (UsPage.create_property_agent fresh st) <> None.
Proof.
  intros fresh later model fire_key open_key st.
  unfold UsPage.create_property_agent, UsPage.sidebar.
  destruct (UsPage.property_agent st) as [a | ] eqn:Hagent;
    cbn; rewrite ?Hagent; cbn; rewrite ?Hagent;
    (split; [reflexivity | discriminate]).
Qed.

(** ** The category based agent on a response without listings *)

Section CroresFacts.

Variable repr : pyval -> string.
Variables schema locations_schema : items.
Variable extract : list string -> items -> res pyval.
Variable agent_run : string -> res string.

Local Abbreviation find_properties :=
  (Crores.find_properties repr schema extract agent_run).
Local Abbreviation get_location_trends :=
  (CroresPage.get_location_trends repr locations_schema extract agent_run).

(** The response is no dict, or its [success] is false or missing. *)
Lemma unsuccessful_properties (raw : pyval) :
  (forall d, raw = PDict d -> truthy (dict_get d "success" PNone) = false) ->
  Crores.properties_of raw = Ok (PList []).
Proof.
  intros Hfail. destruct raw as [ | | | | | | d]; try reflexivity.
  simpl. now rewrite (Hfail d eq_refl).
Qed.

(** X14: when the extraction answers with something that is no dict, or
    with a dict whose [success] is false or missing, [find_properties]
    still consults the model: it hands it the analysis text built on the
    empty list and returns what the model says. *)
Theorem failed_extraction_is_still_analysed :
  forall (city : string) (max_price : pyval)
         (property_category property_type : string) (raw : pyval),
    extract (Crores.urls (lower city))
      [("prompt",
        PStr (Crores.extract_prompt repr city max_price property_category
                (if (property_type =? "Flat")%string then "Flats"
                 else "Individual Houses")));
       ("schema", PDict schema)] = Ok raw ->
    (forall d, raw = PDict d -> truthy (dict_get d "success" PNone) = false) ->
    find_properties city max_price property_category property_type
    = agent_run (Crores.analysis_prompt repr (PList []) max_price
                   property_category property_type).
Proof.
  intros city max_price property_category property_type raw Hextract Hfail.
  unfold Crores.find_properties. rewrite Hextract. cbn [bind].
  now rewrite (unsuccessful_properties raw Hfail).
Qed.

(** X15: on such a response [get_location_trends] does not consult the
    model: it returns the fixed text "No price trends data available". *)
Theorem failed_extraction_gives_no_trends :
  forall (city : string) (raw : pyval),
    extract [CroresPage.trends_url city]
      [("prompt", PStr CroresPage.trends_prompt);
       ("schema", PDict locations_schema)] = Ok raw ->
    (forall d, raw = PDict d -> truthy (dict_get d "success" PNone) = false) ->
    get_location_trends city = Ok "No price trends data available".
Proof.
  intros city raw Hextract Hfail.
  unfold CroresPage.get_location_trends. rewrite Hextract. cbn [bind].
  destruct raw as [ | | | | | | d]; try reflexivity.
  now rewrite (Hfail d eq_refl).
Qed.

(** X16: a response that says [success] and holds no [data] makes both
    calls raise [KeyError], with the model not consulted; an exception of
    the extraction itself is raised by both as it is. *)
Theorem success_without_data_raises :
  forall (city : string) (max_price : pyval)
         (property_category property_type : string) (d : items),
    truthy (dict_get d "success" PNone) = true ->
    lookup "data" d = None ->
    (extract (Crores.urls (lower city))
       [("prompt",
         PStr (Crores.extract_prompt repr city max_price property_category
                 (if (property_type =? "Flat")%string then "Flats"
                  else "Individual Houses")));
        ("schema", PDict schema)] = Ok (PDict d) ->
     find_properties city max_price property_category property_type
     = Raise KeyError) /\
    (extract [CroresPage.trends_url city]
       [("prompt", PStr CroresPage.trends_prompt);
        ("schema", PDict locations_schema)] = Ok (PDict d) ->
     get_location_trends city = Raise KeyError).
Proof.
  intros city max_price property_category property_type d Hsuccess Hdata.
  split; intros Hextract.
  - unfold Crores.find_properties. rewrite Hextract. cbn [bind].
    unfold Crores.properties_of. rewrite Hsuccess.
    cbn [getitem bind]. now rewrite Hdata.
  - unfold CroresPage.get_location_trends. rewrite Hextract. cbn [bind].
    rewrite Hsuccess. cbn [getitem bind]. now rewrite Hdata.
Qed.

End CroresFacts.

Lemma failed_extraction_is_still_analysed_witness :
  let said_no := fun (_ : list string) (_ : items) =>
                   Ok (PDict [("success", PBool false)]) in
  Crores.find_properties repr_stub [] said_no (fun text => Ok text)
    "Pune" (PFloat (Fdec 5 0)) "Residential" "Flat"
  = Ok (Crores.analysis_prompt repr_stub (PList []) (PFloat (Fdec 5 0))
          "Residential" "Flat").
Proof.
  apply (failed_extraction_is_still_analysed repr_stub []
           (fun _ _ => Ok (PDict [("success", PBool false)]))
           (fun text => Ok text) "Pune" (PFloat (Fdec 5 0)) "Residential"
           "Flat" (PDict [("success", PBool false)])).
  - reflexivity.
  - intros d [= <-]. reflexivity.
Defined.

Lemma failed_extraction_gives_no_trends_witness :
  CroresPage.get_location_trends repr_stub []
    (fun _ _ => Ok (PStr "upstream unavailable")) (fun text => Ok text) "Pune"
  = Ok "No price trends data available".
Proof.
  apply (failed_extraction_gives_no_trends repr_stub []
           (fun _ _ => Ok (PStr "upstream unavailable")) (fun text => Ok text)
           "Pune" (PStr "upstream unavailable")).
  - reflexivity.
  - intros d [=].
Defined.

Lemma success_without_data_raises_witness :
  let said_yes := fun (_ : list string) (_ : items) =>
                    Ok (PDict [("success", PBool true)]) in
  Crores.find_properties repr_stub [] said_yes (fun text => Ok text)
    "Pune" (PFloat (Fdec 5 0)) "Residential" "Flat" = Raise KeyError /\
  CroresPage.get_location_trends repr_stub [] said_yes (fun text => Ok text)
    "Pune" = Raise KeyError.
Proof.
  destruct (success_without_data_raises repr_stub [] []
              (fun _ _ => Ok (PDict [("success", PBool true)]))
              (fun text => Ok text) "Pune" (PFloat (Fdec 5 0)) "Residential"
              "Flat" [("success", PBool true)] eq_refl eq_refl)
    as [Hfind Htrends].
  split; [apply Hfind | apply Htrends]; reflexivity.
Defined.

(** ** The stored keys and the search button of the coordinate page *)

Section KeyFacts.

Variable client : Type.
Variable secrets : string -> res pyval.
Variable create_client : pyval -> pyval -> res client.
Variable select_keys : client -> res pyval.

Local Abbreviation get_keys_from_supabase :=
  (RapidPage.get_keys_from_supabase secrets create_client select_keys).

Lemma initialize_supabase_shown :
  match RapidPage.initialize_supabase secrets create_client with
  | (Some _, shown) => shown = []
  | (None, shown) => exists n, shown = [n]
  end.
Proof.
  unfold RapidPage.initialize_supabase.
  destruct (bind (secrets "supabase_url") _) as [c | e]; [reflexivity | ].
  destruct e; eauto.
Qed.

Lemma keys_of_complete (data : pyval) (keys : option pyval)
  (shown : list RapidPage.notice) :
  RapidPage.keys_of data = Ok (keys, shown) ->
  match keys with
  | Some row =>
    shown = [] /\
    exists (d : items) (rapidapi_key openai_key : pyval),
      row = PDict d /\
      lookup "rapidapi_key" d = Some rapidapi_key /\
      truthy rapidapi_key = true /\
      lookup "openai_key" d = Some openai_key /\
      truthy openai_key = true
  | None => exists n, shown = [n]
  end.
Proof.
  unfold RapidPage.keys_of.
  destruct (truthy data); [ | intros [= <- <-]; eauto].
  destruct (RapidPage.len data) as [n | e]; [ | discriminate]. cbn [bind].
  destruct (0 <? n)%nat; [ | intros [= <- <-]; eauto].
  destruct (RapidPage.first_item data) as [row | e]; [ | discriminate].
  cbn [bind].
  destruct row as [ | | | | | | d]; try discriminate. cbn [get bind].
  unfold dict_get.
  destruct (lookup "rapidapi_key" d) as [rapidapi_key | ] eqn:Hrapid;
    [ | intros [= <- <-]; eauto].
  destruct (truthy rapidapi_key) eqn:Hrapid_set; [ | intros [= <- <-]; eauto].
  destruct (lookup "openai_key" d) as [openai_key | ] eqn:Hopen;
    [ | intros [= <- <-]; eauto].
  destruct (truthy openai_key) eqn:Hopen_set; intros [= <- <-]; [ | eauto].
  split; [reflexivity | ].
  exists d, rapidapi_key, openai_key. auto.
Qed.

(** X17: [get_keys_from_supabase] hands out complete keys or none: what
    it returns is either [None], with exactly one message shown on the
    page, or a dict that holds a truthy [rapidapi_key] and a truthy
    [openai_key], with no message shown; so the two subscripts of [main]
    on the returned keys cannot raise [KeyError]. *)
Theorem stored_keys_are_complete_or_none :
  (forall row : pyval,
     fst get_keys_from_supabase = Some row ->
     snd get_keys_from_supabase = [] /\
     exists (d : items) (rapidapi_key openai_key : pyval),
       row = PDict d /\
       getitem row "rapidapi_key" = Ok rapidapi_key /\
       truthy rapidapi_key = true /\
       getitem row "openai_key" = Ok openai_key /\
       truthy openai_key = true) /\
  (fst get_keys_from_supabase = None ->
   exists n : RapidPage.notice, snd get_keys_from_supabase = [n]).
Proof.
  unfold RapidPage.get_keys_from_supabase.
  pose proof initialize_supabase_shown as Hinit.
  destruct (RapidPage.initialize_supabase secrets create_client)
    as [[supabase_client | ] shown].
  - subst shown.
    destruct (select_keys supabase_client) as [data | e]; cbn [bind].
    + pose proof (keys_of_complete data) as Hkeys.
      destruct (RapidPage.keys_of data) as [[keys shown'] | e].
      * specialize (Hkeys keys shown' eq_refl). cbn [fst snd app].
        split.
        -- intros row ->.
           destruct Hkeys as [-> (d & rk & ok & -> & Hrk & Hrk_set & Hok & Hok_set)].
           split; [reflexivity | ].
           exists d, rk, ok. cbn [getitem]. rewrite Hrk, Hok. auto.
        -- intros ->. exact Hkeys.
      * cbn [fst snd app]. split; [discriminate | eauto].
    + cbn [fst snd app]. split; [discriminate | eauto].
  - cbn [fst snd]. split; [discriminate | intros _; exact Hinit].
Qed.

End KeyFacts.

Lemma stored_keys_are_complete_or_none_witness :
  let row := PDict [("rapidapi_key", PStr "r"); ("openai_key", PStr "o")] in
  let stored :=
    RapidPage.get_keys_from_supabase (fun _ => Ok (PStr "secret"))
      (fun _ _ => Ok tt) (fun _ : unit => Ok (PList [row])) in
  let empty :=
    RapidPage.get_keys_from_supabase (fun _ => Ok (PStr "secret"))
      (fun _ _ => Ok tt) (fun _ : unit => Ok (PList [])) in
  (snd stored = [] /\
   exists (d : items) (rapidapi_key openai_key : pyval),
     row = PDict d /\
     getitem row "rapidapi_key" = Ok rapidapi_key /\
     truthy rapidapi_key = true /\
     getitem row "openai_key" = Ok openai_key /\
     truthy openai_key = true) /\
  exists n : RapidPage.notice, snd empty = [n].
Proof.
  split.
  - apply (proj1 (stored_keys_are_complete_or_none unit
                    (fun _ => Ok (PStr "secret")) (fun _ _ => Ok tt)
                    (fun _ : unit =>
                       Ok (PList [PDict [("rapidapi_key", PStr "r");
                                         ("openai_key", PStr "o")]])))).
    reflexivity.
  - apply (proj2 (stored_keys_are_complete_or_none unit
                    (fun _ => Ok (PStr "secret")) (fun _ _ => Ok tt)
                    (fun _ : unit => Ok (PList [])))).
    reflexivity.
Defined.

Section ButtonFacts.

Variable repr : pyval -> string.
Variable int_of_str : string -> option Z.
Variable send : pyval -> RapidApi.reply.

Local Abbreviation search_clicked :=
  (RapidPage.search_clicked repr int_of_str send).

(** X18: a search without listings ends in [NameError]: when the round
    trip made with the stored key fails, or its payload holds no listings,
    the click does not reach the message for no results but raises
    [NameError], on the name [radius] that [main] does not define. *)
Theorem search_without_listings_raises_NameError :
  forall (api_keys rapidapi_key : pyval),
    getitem api_keys "rapidapi_key" = Ok rapidapi_key ->
    upstream_failure (send rapidapi_key) = true \/
    (exists (status : Z) (v : pyval),
       send rapidapi_key = RapidApi.Response status (Ok v) /\
       lacks_listings v = true) ->
    fst (search_clicked api_keys)
    = RapidPage.ClickRaises RapidPage.NameError.
Proof.
  intros api_keys rapidapi_key Hkey Hnone.
  assert (Hempty : fst (RapidApi.search_properties_rapidapi repr int_of_str
                          (send rapidapi_key)) = Ok []).
  { destruct Hnone as [Hfail | (status & v & -> & Hlacks)].
    - now apply search_upstream_failure.
    - now apply search_lacks_listings. }
  unfold RapidPage.search_clicked. rewrite Hkey.
  destruct (RapidApi.search_properties_rapidapi repr int_of_str
              (send rapidapi_key)) as [outcome shown].
  cbn [fst] in Hempty. subst outcome. reflexivity.
Qed.

End ButtonFacts.

Lemma search_without_listings_raises_NameError_witness :
  fst (RapidPage.search_clicked repr_stub int_of_str_stub
         (fun _ => RapidApi.Response 503 (Ok (PDict [])))
         (PDict [("rapidapi_key", PStr "r"); ("openai_key", PStr "o")]))
  = RapidPage.ClickRaises RapidPage.NameError.
Proof.
  apply (search_without_listings_raises_NameError repr_stub int_of_str_stub
           (fun _ => RapidApi.Response 503 (Ok (PDict [])))
           (PDict [("rapidapi_key", PStr "r"); ("openai_key", PStr "o")])
           (PStr "r")).
  - reflexivity.
  - left. reflexivity.
Defined.

(** ** The price of the extraction prompt *)

Section PriceFacts.

Local Open Scope list_scope.

Local Abbreviation no_comma := (fun c : ascii => negb (Ascii.eqb c ",")).

Lemma replace_char_filter (s : string) :
  replace_char "," "" s = str (filter no_comma (chars s)).
Proof.
  unfold replace_char. f_equal.
  induction (chars s) as [ | c l IH]; [reflexivity | ].
  cbn [flat_map filter]. rewrite IH. now destruct (Ascii.eqb c ",").
Qed.

Lemma group3_keeps_digits (l : list ascii) :
  forall i : nat, filter no_comma (Us.group3 l i) = filter no_comma l.
Proof.
  induction l as [ | d t IH]; intros i; [reflexivity | ].
  destruct t as [ | d' t']; [reflexivity | ].
  remember (d' :: t') as t eqn:Ht.
  assert (Hstep : Us.group3 (d :: t) i
                  = if (i =? 2)%nat then d :: ","%char :: Us.group3 t 0
                    else d :: Us.group3 t (S i)) by (subst t; reflexivity).
  rewrite Hstep. clear Hstep Ht.
  destruct (i =? 2)%nat; cbn [filter]; rewrite IH; reflexivity.
Qed.

Lemma digits_have_no_comma (d : Decimal.uint) :
  filter no_comma (chars (NilEmpty.string_of_uint d))
  = chars (NilEmpty.string_of_uint d).
Proof.
  unfold chars.
  induction d as [ | d IH | d IH | d IH | d IH | d IH | d IH | d IH | d IH
                   | d IH | d IH ];
    cbn [NilEmpty.string_of_uint list_ascii_of_string filter];
    [reflexivity | rewrite IH; reflexivity ..].
Qed.

Lemma numeral_has_no_comma (d : Decimal.uint) :
  filter no_comma (chars (NilZero.string_of_uint d))
  = chars (NilZero.string_of_uint d).
Proof.
  destruct d; [reflexivity | apply digits_have_no_comma ..].
Qed.

Lemma grouped_numeral (d : Decimal.uint) :
  replace_char "," ""
    (str (rev (Us.group3 (rev (chars (NilZero.string_of_uint d))) 0)))
  = NilZero.string_of_uint d.
Proof.
  rewrite replace_char_filter, chars_str.
  rewrite <- (rev_involutive (filter no_comma (rev _))).
  rewrite <- filter_rev, rev_involutive, group3_keeps_digits.
  rewrite filter_rev, rev_involutive, numeral_has_no_comma.
  apply str_chars.
Qed.

Lemma replace_char_sign (s : string) :
  replace_char "," "" ("-" ++ s) = ("-" ++ replace_char "," "" s)%string.
Proof. reflexivity. Qed.

End PriceFacts.

(** X19: the thousands separators of the price in the extraction prompt
    lose no digit: for a whole number that a float holds exactly, the
    formatted price with its commas taken out is the decimal numeral of
    the number. *)
Theorem formatted_price_without_commas :
  forall n : Z,
    (Z.abs n <= 2 ^ 53)%Z ->
    replace_char "," "" (Us.format_comma_0f n) = str_of_int n.
Proof.
  intros n _. unfold Us.format_comma_0f, str_of_int.
  destruct n as [ | p | p].
  - reflexivity.
  - change (Z.to_int (Z.abs (Z.pos p))) with (Decimal.Pos (Pos.to_uint p)).
    change (Z.to_int (Z.pos p)) with (Decimal.Pos (Pos.to_uint p)).
    cbn [Z.ltb Z.compare NilZero.string_of_int append].
    apply grouped_numeral.
  - change (Z.to_int (Z.abs (Z.neg p))) with (Decimal.Pos (Pos.to_uint p)).
    change (Z.to_int (Z.neg p)) with (Decimal.Neg (Pos.to_uint p)).
    cbn [Z.ltb Z.compare NilZero.string_of_int].
    rewrite replace_char_sign, grouped_numeral. reflexivity.
Qed.

Lemma formatted_price_without_commas_witness :
  replace_char "," "" (Us.format_comma_0f 450000) = str_of_int 450000.
Proof.
  apply (formatted_price_without_commas 450000). vm_compute. discriminate.
Defined.
